(** * backend/debug_cbor.py: a base64 / CBOR debugging script

    The script decodes a base64 literal with [base64.urlsafe_b64decode],
    prints the length and a hex dump of the bytes, hands them to
    [cbor2.loads] and prints the value with [json.dumps]; when that raises it
    prints the exception and looks at the first byte.

    The script itself is embedded statement by statement in [debug_cbor].
    What it calls from the Python library is embedded next to it, after the
    library's code: [binascii.a2b_base64] and [base64.urlsafe_b64decode]
    (CPython 3.11 to 3.13), the pure-Python encoder behind
    [json.dumps (indent=2, default=str)], and the decoder of cbor2 5.x for
    definite-length items.  Where a library is not followed, on CBOR outside
    that fragment and on containers nested deeper than 256, in the bytes or
    in the value, its answer is a parameter of the model ([beyond], [deep]),
    and what is proved holds for every such answer.

    Python [str] is a Rocq [string] (a character stands for the code point of
    the same number), Python [bytes] is a [list byte]. *)

From Stdlib Require Import NArith ZArith List Bool Lia.
From Stdlib.Strings Require Import String Ascii Byte.
From Stdlib Require Import DecimalString HexadecimalString.
Import ListNotations.
Open Scope string_scope.
Set Warnings "-register-all".

(** ** Python values, exceptions and standard output *)

Module Py.

Inductive exn_class : Set :=
| ValueError
| binascii_Error
| IndexError
| TypeError
| CBORDecodeEOF
| CBORDecodeValueError.

(** An exception: its class and the text [str(e)] gives. *)
Record exn : Set := Exn { exn_type : exn_class; exn_str : string }.

Inductive result (A : Type) : Type :=
| Ok (a : A)
| Raise (e : exn).
Arguments Ok {A} a.
Arguments Raise {A} e.

(** A run of Python code: what it printed, one entry a call of [print],
    and how it ended. *)
Definition io (A : Type) : Type := (list string * result A)%type.

Definition ret {A} (a : A) : io A := ([], Ok a).

Definition bind {A B} (m : io A) (k : A -> io B) : io B :=
  match m with
  | (out, Ok a) => let (out', r) := k a in ((out ++ out')%list, r)
  | (out, Raise e) => (out, Raise e)
  end.

Definition print (s : string) : io unit := ([s], Ok tt).

Definition eval {A} (r : result A) : io A := ([], r).

(** [try: body / except Exception as e: handler e] *)
Definition try_except {A} (body : io A) (handler : exn -> io A) : io A :=
  match body with
  | (out, Ok a) => (out, Ok a)
  | (out, Raise e) => let (out', r) := handler e in ((out ++ out')%list, r)
  end.

(** The text on standard output: [print] ends each argument with a newline. *)
Definition newline : string := String (ascii_of_N 10) "".

Fixpoint stdout (printed : list string) : string :=
  match printed with
  | [] => ""
  | s :: rest => s ++ newline ++ stdout rest
  end.

(** [str(n)] of an integer. *)
Definition str_of_N (n : N) : string := DecimalString.NilZero.string_of_uint (N.to_uint n).
Definition str_of_Z (z : Z) : string := DecimalString.NilZero.string_of_int (Z.to_int z).

(** ["%x" % n] *)
Definition hex_of_N (n : N) : string :=
  HexadecimalString.NilZero.string_of_uint (N.to_hex_uint n).

(** One lower-case hexadecimal digit. *)
Definition hexdigit (n : N) : ascii :=
  if (n <? 10)%N then ascii_of_N (48 + n) else ascii_of_N (87 + n).

(** [f"{b:02x}"] of a byte value. *)
Definition format_02x (b : byte) : string :=
  let n := Byte.to_N b in
  String (hexdigit (n / 16)) (String (hexdigit (n mod 16)) "").

(** [bytes.hex()] *)
Fixpoint bytes_hex (bs : list byte) : string :=
  match bs with
  | [] => ""
  | b :: rest => format_02x b ++ bytes_hex rest
  end.

(** [s * n] for a string [s]. *)
Fixpoint str_mul (s : string) (n : nat) : string :=
  match n with
  | O => ""
  | S n' => s ++ str_mul s n'
  end.

(** [bs[0]] *)
Definition index0 (bs : list byte) : result byte :=
  match bs with
  | b :: _ => Ok b
  | [] => Raise (Exn IndexError "index out of range")
  end.

(** Casting a C [int] to [unsigned char]. *)
Definition uchar (n : N) : byte := byte_of_ascii (ascii_of_N n).

End Py.
Import Py.

Notation "x <- m ;; k" := (Py.bind m (fun x => k))
  (at level 61, m at next level, right associativity).
Notation "m ;;; k" := (Py.bind m (fun _ => k))
  (at level 61, right associativity).

(** ** binascii.a2b_base64 and base64.urlsafe_b64decode *)

Module binascii.

Definition BASE64_PAD : N := 61.

(** [table_a2b_base64]: the value of a base64 digit, 255 ([-1] stored in an
    [unsigned char]) for any other byte; the pad character has entry 0. *)
Definition table_a2b_base64 (c : N) : N :=
  (if (65 <=? c) && (c <=? 90) then c - 65
   else if (97 <=? c) && (c <=? 122) then c - 71
   else if (48 <=? c) && (c <=? 57) then c + 4
   else if c =? 43 then 62
   else if c =? 47 then 63
   else if c =? 61 then 0
   else 255)%N.

(** The loop of [binascii_a2b_base64_impl] with [strict_mode = 0].
    [bin_data] is what has been written to the output buffer. *)
Fixpoint a2b_loop (ascii_data : list byte) (quad_pos : N) (leftchar : N)
         (pads : N) (bin_data : list byte) : result (list byte) :=
  match ascii_data with
  | [] =>
      if (quad_pos =? 0)%N then Ok bin_data
      else if (quad_pos =? 1)%N then
        Raise (Exn binascii_Error
          ("Invalid base64-encoded string: number of data characters ("
           ++ str_of_N (N.of_nat (List.length bin_data) / 3 * 4 + 1)
           ++ ") cannot be 1 more than a multiple of 4"))
      else Raise (Exn binascii_Error "Incorrect padding")
  | ch :: rest =>
      let this_ch := Byte.to_N ch in
      if (this_ch =? BASE64_PAD)%N then
        if (2 <=? quad_pos)%N then
          (* quad_pos + ++pads >= 4 *)
          if (4 <=? quad_pos + (pads + 1))%N then Ok bin_data
          else a2b_loop rest quad_pos leftchar (pads + 1)%N bin_data
        else a2b_loop rest quad_pos leftchar pads bin_data
      else
        let this_ch := table_a2b_base64 this_ch in
        if (64 <=? this_ch)%N then
          a2b_loop rest quad_pos leftchar pads bin_data
        else if (quad_pos =? 0)%N then
          a2b_loop rest 1%N this_ch 0%N bin_data
        else if (quad_pos =? 1)%N then
          a2b_loop rest 2%N (N.land this_ch 15) 0%N
            (bin_data ++ [uchar (N.lor (N.shiftl leftchar 2) (N.shiftr this_ch 4))])%list
        else if (quad_pos =? 2)%N then
          a2b_loop rest 3%N (N.land this_ch 3) 0%N
            (bin_data ++ [uchar (N.lor (N.shiftl leftchar 4) (N.shiftr this_ch 2))])%list
        else
          a2b_loop rest 0%N 0%N 0%N
            (bin_data ++ [uchar (N.lor (N.shiftl leftchar 6) this_ch)])%list
  end.

Definition a2b_base64 (data : list byte) : result (list byte) :=
  a2b_loop data 0%N 0%N 0%N [].

End binascii.

Module base64.

(** [_bytes_from_decode_data] on a [str]: [s.encode('ascii')]. *)
Definition _bytes_from_decode_data (s : string) : result (list byte) :=
  if forallb (fun c => (N_of_ascii c <? 128)%N) (list_ascii_of_string s)
  then Ok (list_byte_of_string s)
  else Raise (Exn ValueError "string argument should contain only ASCII characters").

(** [bytes.maketrans(b'-_', b'+/')] *)
Definition _urlsafe_decode_translation (b : byte) : byte :=
  if (Byte.to_N b =? 45)%N then "+"%byte
  else if (Byte.to_N b =? 95)%N then "/"%byte
  else b.

Definition b64decode (s : list byte) : result (list byte) :=
  binascii.a2b_base64 s.

Definition urlsafe_b64decode (s : string) : result (list byte) :=
  match _bytes_from_decode_data s with
  | Raise e => Raise e
  | Ok bs => b64decode (List.map _urlsafe_decode_translation bs)
  end.

End base64.

(** ** cbor2: the values [loads] returns and its decoder *)

Module cbor2.

(** The Python objects [cbor2.loads] returns, as [json.dumps] tells them
    apart.  A [float] is identified with the text [float.__repr__] gives
    for it (for a NaN or an infinity, the text json writes), any other
    object (undefined, a tag, a date, ...) with the name of its class and
    the text of [str(o)].  A list that is a key of a mapping is a tuple. *)
Inductive Value : Type :=
| VInt (n : Z)
| VBytes (b : list byte)
| VStr (s : string)
| VBool (b : bool)
| VNone
| VFloat (repr : string)
| VList (items : list Value)
| VDict (items : list (Value * Value))
| VObj (cls : string) (text : string).

Definition undefined : Value := VObj "UndefinedType" "undefined".

(** What the model of the decoder answers: a value, an exception, or
    [Beyond] where the input leaves the fragment that is modelled (tags,
    floats, simple values, indefinite lengths, text that is not ASCII,
    strings above 65536 bytes, lists and mappings used as keys, containers
    nested deeper than [max_depth]). *)
Inductive outcome (A : Type) : Type :=
| Parsed (a : A)
| Failed (e : exn)
| Beyond.
Arguments Parsed {A} a.
Arguments Failed {A} e.
Arguments Beyond {A}.

Definition sys_maxsize : N := 9223372036854775807.

(** How deep the model follows containers in containers.  The decoder is
    limited too, by a bound of its own in the later releases and by the
    recursion limit of the interpreter in the earlier ones; what it does
    past [max_depth] is left to [Beyond]. *)
Definition max_depth : nat := 256.

(** [CBORDecoder.read]: the bytes read and the rest of the stream. *)
Definition read (amount : N) (data : list byte)
  : outcome (list byte * list byte) :=
  if (N.of_nat (List.length data) <? amount)%N then
    Failed (Exn CBORDecodeEOF
      ("premature end of stream (expected to read " ++ str_of_N amount
       ++ " bytes, got " ++ str_of_N (N.of_nat (List.length data))
       ++ " instead)"))
  else Parsed (firstn (N.to_nat amount) data, skipn (N.to_nat amount) data).

(** [struct.unpack] of a big-endian unsigned integer. *)
Definition unpack_be (bs : list byte) : N :=
  fold_left (fun acc b => (acc * 256 + Byte.to_N b)%N) bs 0%N.

(** [_decode_length]; [None] is the indefinite length. *)
Definition _decode_length (subtype : N) (allow_indefinite : bool)
           (data : list byte) : outcome (option N * list byte) :=
  let fixed (width : N) :=
    match read width data with
    | Parsed (bs, rest) => Parsed (Some (unpack_be bs), rest)
    | Failed e => Failed e
    | Beyond => Beyond
    end in
  if (subtype <? 24)%N then Parsed (Some subtype, data)
  else if (subtype =? 24)%N then fixed 1%N
  else if (subtype =? 25)%N then fixed 2%N
  else if (subtype =? 26)%N then fixed 4%N
  else if (subtype =? 27)%N then fixed 8%N
  else if (subtype =? 31)%N && allow_indefinite then Parsed (None, data)
  else Failed (Exn CBORDecodeValueError
         ("unknown unsigned integer subtype 0x" ++ hex_of_N subtype)).

(** The bytes of a definite-length string, major types 2 and 3. *)
Definition read_string (what : string) (subtype : N) (data : list byte)
  : outcome (list byte * list byte) :=
  match _decode_length subtype true data with
  | Failed e => Failed e
  | Beyond => Beyond
  | Parsed (None, _) => Beyond
  | Parsed (Some length, rest) =>
      if (sys_maxsize <? length)%N then
        Failed (Exn CBORDecodeValueError
          ("invalid length for " ++ what ++ " 0x" ++ hex_of_N length))
      else if (length <=? 65536)%N then read length rest
      else Beyond
  end.

(** [==] and [hash] agree on the keys the model keeps: an [int] equals the
    [bool] of the same number. *)
Definition key_eq (a b : Value) : bool :=
  match a, b with
  | VInt x, VInt y => (x =? y)%Z
  | VInt x, VBool y | VBool y, VInt x => (x =? (if y then 1 else 0))%Z
  | VBool x, VBool y => Bool.eqb x y
  | VStr x, VStr y => String.eqb x y
  | VBytes x, VBytes y =>
      if list_eq_dec Byte.byte_eq_dec x y then true else false
  | VNone, VNone => true
  | VObj c x, VObj d y => String.eqb c d && String.eqb x y
  | _, _ => false
  end.

(** [dictionary[key] = value]: an equal key keeps its place and its first
    spelling and takes the new value. *)
Fixpoint dict_setitem (d : list (Value * Value)) (key value : Value)
  : list (Value * Value) :=
  match d with
  | [] => [(key, value)]
  | (k, v) :: rest =>
      if key_eq k key then (k, value) :: rest
      else (k, v) :: dict_setitem rest key value
  end.

Definition is_container (v : Value) : bool :=
  match v with
  | VList _ | VDict _ => true
  | _ => false
  end.

(** [CBORDecoder._decode] with [decode_array] and [decode_map]; [fuel]
    bounds the depth of the calls, [depth] counts the containers around the
    item. *)
Fixpoint _decode (fuel : nat) (depth : nat) (data : list byte)
  : outcome (Value * list byte) :=
  match fuel with
  | O => Beyond
  | S fuel' =>
    match read 1%N data with
    | Failed e => Failed e
    | Beyond => Beyond
    | Parsed (first, data1) =>
      let initial_byte := unpack_be first in
      let major_type := N.shiftr initial_byte 5 in
      let subtype := N.land initial_byte 31 in
      if (major_type =? 0)%N then
        match _decode_length subtype false data1 with
        | Parsed (Some n, rest) => Parsed (VInt (Z.of_N n), rest)
        | Parsed (None, _) => Beyond
        | Failed e => Failed e
        | Beyond => Beyond
        end
      else if (major_type =? 1)%N then
        match _decode_length subtype false data1 with
        | Parsed (Some n, rest) => Parsed (VInt (- Z.of_N n - 1), rest)
        | Parsed (None, _) => Beyond
        | Failed e => Failed e
        | Beyond => Beyond
        end
      else if (major_type =? 2)%N then
        match read_string "bytestring" subtype data1 with
        | Parsed (bs, rest) => Parsed (VBytes bs, rest)
        | Failed e => Failed e
        | Beyond => Beyond
        end
      else if (major_type =? 3)%N then
        match read_string "string" subtype data1 with
        | Parsed (bs, rest) =>
            if forallb (fun b => (Byte.to_N b <? 128)%N) bs
            then Parsed (VStr (string_of_list_byte bs), rest)
            else Beyond
        | Failed e => Failed e
        | Beyond => Beyond
        end
      else if (major_type =? 4)%N then
        if (max_depth <=? depth)%nat then Beyond else
        match _decode_length subtype true data1 with
        | Parsed (Some length, rest) =>
            if (sys_maxsize <? length)%N then
              Failed (Exn CBORDecodeValueError
                ("invalid length for array 0x" ++ hex_of_N length))
            else
              match decode_items fuel' (S depth) length rest with
              | Parsed (items, rest') => Parsed (VList items, rest')
              | Failed e => Failed e
              | Beyond => Beyond
              end
        | Parsed (None, _) => Beyond
        | Failed e => Failed e
        | Beyond => Beyond
        end
      else if (major_type =? 5)%N then
        if (max_depth <=? depth)%nat then Beyond else
        match _decode_length subtype true data1 with
        | Parsed (Some length, rest) =>
            match decode_pairs fuel' (S depth) length [] rest with
            | Parsed (dictionary, rest') => Parsed (VDict dictionary, rest')
            | Failed e => Failed e
            | Beyond => Beyond
            end
        | Parsed (None, _) => Beyond
        | Failed e => Failed e
        | Beyond => Beyond
        end
      else if (major_type =? 6)%N then Beyond
      else if (subtype =? 20)%N then Parsed (VBool false, data1)
      else if (subtype =? 21)%N then Parsed (VBool true, data1)
      else if (subtype =? 22)%N then Parsed (VNone, data1)
      else if (subtype =? 23)%N then Parsed (undefined, data1)
      else if (28 <=? subtype)%N && (subtype <=? 30)%N then
        Failed (Exn CBORDecodeValueError
          ("Undefined Reserved major type 7 subtype 0x" ++ hex_of_N subtype))
      else Beyond
    end
  end

(** [for index in range(length): items.append(self._decode())] *)
with decode_items (fuel : nat) (depth : nat) (length : N) (data : list byte)
  : outcome (list Value * list byte) :=
  match fuel with
  | O => Beyond
  | S fuel' =>
    if (length =? 0)%N then Parsed ([], data)
    else
      match _decode fuel' depth data with
      | Failed e => Failed e
      | Beyond => Beyond
      | Parsed (item, rest) =>
        match decode_items fuel' depth (length - 1)%N rest with
        | Parsed (items, rest') => Parsed (item :: items, rest')
        | Failed e => Failed e
        | Beyond => Beyond
        end
      end
  end

(** [for _ in range(length): key = self._decode(immutable=True);
    dictionary[key] = self._decode()] *)
with decode_pairs (fuel : nat) (depth : nat) (length : N)
                  (dictionary : list (Value * Value)) (data : list byte)
  : outcome (list (Value * Value) * list byte) :=
  match fuel with
  | O => Beyond
  | S fuel' =>
    if (length =? 0)%N then Parsed (dictionary, data)
    else
      match _decode fuel' depth data with
      | Failed e => Failed e
      | Beyond => Beyond
      | Parsed (key, rest) =>
        if is_container key then Beyond
        else
          match _decode fuel' depth rest with
          | Failed e => Failed e
          | Beyond => Beyond
          | Parsed (value, rest') =>
              decode_pairs fuel' depth (length - 1)%N
                (dict_setitem dictionary key value) rest'
          end
      end
  end.

(** [CBORDecoder(BytesIO(s)).decode()]: one item, what follows it is left
    unread. *)
Definition decode (s : list byte) : outcome Value :=
  match _decode (2 * List.length s + 2) 0 s with
  | Parsed (v, _) => Parsed v
  | Failed e => Failed e
  | Beyond => Beyond
  end.

Section Loads.
(** What cbor2 answers on an input beyond the modelled fragment. *)
Variable beyond : list byte -> result Value.

Definition loads (s : list byte) : result Value :=
  match decode s with
  | Parsed v => Ok v
  | Failed e => Raise e
  | Beyond => beyond s
  end.
End Loads.

End cbor2.
Import cbor2.

(** ** json.dumps(o, indent=2, default=str) *)

Module json.

Definition chr (n : N) : string := String (ascii_of_N n) "".

(** ["\\u{0:04x}".format(n)] for a code point below 256. *)
Definition u_escape (n : N) : string :=
  "\u00" ++ String (hexdigit (n / 16)) (String (hexdigit (n mod 16)) "").

(** [ESCAPE_ASCII] with [ESCAPE_DCT]: the replacement of one character. *)
Definition escape_char (c : ascii) : string :=
  let n := N_of_ascii c in
  if (n =? 92)%N then "\\"
  else if (n =? 34)%N then "\" ++ chr 34
  else if (n =? 8)%N then "\b"
  else if (n =? 12)%N then "\f"
  else if (n =? 10)%N then "\n"
  else if (n =? 13)%N then "\r"
  else if (n =? 9)%N then "\t"
  else if (n <? 32)%N || (126 <? n)%N then u_escape n
  else String c "".

Fixpoint escape (s : string) : string :=
  match s with
  | EmptyString => ""
  | String c rest => escape_char c ++ escape rest
  end.

(** [py_encode_basestring_ascii] *)
Definition encode_basestring_ascii (s : string) : string :=
  chr 34 ++ escape s ++ chr 34.

(** [bytes.__repr__], which is [str(b)] for a [bytes] object. *)
Definition repr_byte (quote : N) (b : byte) : string :=
  let c := Byte.to_N b in
  if (c =? quote)%N || (c =? 92)%N then "\" ++ chr c
  else if (c =? 9)%N then "\t"
  else if (c =? 10)%N then "\n"
  else if (c =? 13)%N then "\r"
  else if (c <? 32)%N || (127 <=? c)%N then "\x" ++ format_02x b
  else chr c.

Definition bytes_repr (bs : list byte) : string :=
  let squotes := existsb (fun b => (Byte.to_N b =? 39)%N) bs in
  let dquotes := existsb (fun b => (Byte.to_N b =? 34)%N) bs in
  let quote := if squotes && negb dquotes then 34%N else 39%N in
  "b" ++ chr quote
      ++ String.concat "" (List.map (repr_byte quote) bs)
      ++ chr quote.

(** [key.__class__.__name__] *)
Definition class_name (v : Value) : string :=
  match v with
  | VInt _ => "int"
  | VBytes _ => "bytes"
  | VStr _ => "str"
  | VBool _ => "bool"
  | VNone => "NoneType"
  | VFloat _ => "float"
  | VList _ => "tuple"
  | VDict _ => "FrozenDict"
  | VObj cls _ => cls
  end.

(** [sys.int_info.default_max_str_digits] *)
Definition max_str_digits : nat := 4300.

(** [int.__repr__]: the decimal text, refused with ValueError when the number
    has more than [max_str_digits] digits. *)
Definition int_repr (n : Z) : result string :=
  if (max_str_digits <? String.length (str_of_N (Z.abs_N n)))%nat then
    Raise (Exn ValueError
      "Exceeds the limit (4300 digits) for integer string conversion; use sys.set_int_max_str_digits() to increase the limit")
  else Ok (str_of_Z n).

(** The text of a key of a mapping, or the [TypeError]. *)
Definition encode_key (key : Value) : result string :=
  match key with
  | VStr s => Ok (encode_basestring_ascii s)
  | VFloat repr => Ok (encode_basestring_ascii repr)
  | VBool true => Ok (encode_basestring_ascii "true")
  | VBool false => Ok (encode_basestring_ascii "false")
  | VNone => Ok (encode_basestring_ascii "null")
  | VInt n =>
      match int_repr n with
      | Ok text => Ok (encode_basestring_ascii text)
      | Raise e => Raise e
      end
  | _ => Raise (Exn TypeError
           ("keys must be str, int, float, bool or None, not "
            ++ class_name key))
  end.

Section Chunks.
(** The encoder of the items, one level further in. *)
Variable encode_value : Value -> result string.
(** ['\n' + _indent * _current_indent_level] at that level. *)
Variable newline_indent : string.

(** The loop of [_iterencode_list]. *)
Fixpoint encode_items (first : bool) (lst : list Value) : result string :=
  match lst with
  | [] => Ok ""
  | value :: rest =>
      let buf := if first then newline_indent else "," ++ newline_indent in
      match encode_value value with
      | Raise e => Raise e
      | Ok chunk =>
          match encode_items false rest with
          | Raise e => Raise e
          | Ok more => Ok (buf ++ chunk ++ more)
          end
      end
  end.

(** The loop of [_iterencode_dict], over [dct.items()]. *)
Fixpoint encode_pairs (first : bool) (items : list (Value * Value))
  : result string :=
  match items with
  | [] => Ok ""
  | (key, value) :: rest =>
      match encode_key key with
      | Raise e => Raise e
      | Ok k =>
          let buf := if first then newline_indent else "," ++ newline_indent in
          match encode_value value with
          | Raise e => Raise e
          | Ok chunk =>
              match encode_pairs false rest with
              | Raise e => Raise e
              | Ok more => Ok (buf ++ k ++ ": " ++ chunk ++ more)
              end
          end
      end
  end.
End Chunks.

Definition indent_at (level : nat) : string :=
  newline ++ str_mul (str_mul " " 2) level.

(** [_iterencode], its chunks joined. *)
Fixpoint _iterencode (o : Value) (_current_indent_level : nat)
  : result string :=
  match o with
  | VStr s => Ok (encode_basestring_ascii s)
  | VNone => Ok "null"
  | VBool true => Ok "true"
  | VBool false => Ok "false"
  | VInt n => int_repr n
  | VFloat repr => Ok repr
  | VList [] => Ok "[]"
  | VList lst =>
      match encode_items
              (fun v => _iterencode v (S _current_indent_level))
              (indent_at (S _current_indent_level)) true lst with
      | Raise e => Raise e
      | Ok body => Ok ("[" ++ body ++ indent_at _current_indent_level ++ "]")
      end
  | VDict [] => Ok "{}"
  | VDict dct =>
      match encode_pairs
              (fun v => _iterencode v (S _current_indent_level))
              (indent_at (S _current_indent_level)) true dct with
      | Raise e => Raise e
      | Ok body => Ok ("{" ++ body ++ indent_at _current_indent_level ++ "}")
      end
  | VBytes b => Ok (encode_basestring_ascii (bytes_repr b))
  | VObj _ text => Ok (encode_basestring_ascii text)
  end.

(** How many containers lie one in the other in [o]. *)
Fixpoint nesting (o : Value) : nat :=
  match o with
  | VList lst => S (fold_right (fun v m => Nat.max (nesting v) m) 0 lst)
  | VDict dct => S (fold_right (fun kv m => Nat.max (nesting (snd kv)) m) 0 dct)
  | _ => 0
  end.

(** How deep the model follows the encoder.  The encoder calls itself for
    every container in a container and ends with RecursionError at a depth
    that depends on the recursion limit of the interpreter and on the frames
    in use; [max_nesting] is well below it. *)
Definition max_nesting : nat := 256.

Section Dumps.
(** What json answers on a value nested deeper than [max_nesting]. *)
Variable deep : Value -> result string.

(** [json.dumps(o, indent=2, default=str)] *)
Definition dumps (o : Value) : result string :=
  if (nesting o <=? max_nesting)%nat then _iterencode o 0 else deep o.
End Dumps.

End json.

(** ** The script *)

Module debug_cbor.

Definition base64_data : string :=
  "pGhkaWdlc3RJRBkWF2ZyYW5kb21QHN+DMvBOaGr5GzeSFPIIdnFlbGVtZW50SWRlbnRpZmllcmthZ2Vfb3Zlcl8xOGxlbGVtZW50VmFsdWX1".

(** Line 10: what is appended to the payload. *)
Definition padding (payload : string) : string :=
  str_mul "=" (4 - String.length payload mod 4).

(** Line 10: [base64.urlsafe_b64decode(payload + "=" * (4 - len(payload) % 4))] *)
Definition decode_payload (payload : string) : result (list byte) :=
  base64.urlsafe_b64decode (payload ++ padding payload).

(** Lines 25 to 28. *)
Definition classify (first : byte) : io unit :=
  if (Byte.to_N first =? 0xa4)%N then
    print "  -> This is a CBOR map with 4 keys"
  else if (Byte.to_N first =? 0xa5)%N then
    print "  -> This is a CBOR map with 5 keys"
  else ret tt.

(** Lines 20 to 28: the body of the [except] clause. *)
Definition diagnose_failure (e : exn) (decoded : list byte) : io unit :=
  print ("Error parsing CBOR: " ++ exn_str e) ;;;
  print (newline ++ "Raw byte analysis:") ;;;
  first <- eval (index0 decoded) ;;
  print ("First byte: 0x" ++ format_02x first) ;;;
  classify first.

Section Script.
(** [cbor2.loads] and [json.dumps(_, indent=2, default=str)] *)
Variable parse_cbor : list byte -> result Value.
Variable render : Value -> result string.

(** Lines 16 to 18: the body of the [try] clause. *)
Definition show_parsed (decoded : list byte) : io unit :=
  parsed <- eval (parse_cbor decoded) ;;
  print (newline ++ "Parsed CBOR structure:") ;;;
  text <- eval (render parsed) ;;
  print text.

(** Lines 10 to 28, for any payload in the place of [base64_data]. *)
Definition main (payload : string) : io unit :=
  decoded <- eval (decode_payload payload) ;;
  print ("Decoded bytes length: "
         ++ str_of_N (N.of_nat (List.length decoded))) ;;;
  print ("Hex dump (first 100 bytes): " ++ bytes_hex (firstn 100 decoded)) ;;;
  try_except (show_parsed decoded)
             (fun e => diagnose_failure e decoded).
End Script.

(** The script as it stands, with the models of the two libraries. *)
Definition script (beyond : list byte -> result Value)
           (deep : Value -> result string) : io unit :=
  main (cbor2.loads beyond) (json.dumps deep) base64_data.

End debug_cbor.
Import debug_cbor.

(** ** Notions the statements use *)

(** [needle in s] for two strings. *)
Fixpoint starts_with (needle s : string) : bool :=
  match needle, s with
  | EmptyString, _ => true
  | String a needle', String b s' => Ascii.eqb a b && starts_with needle' s'
  | String _ _, EmptyString => false
  end.

Fixpoint contains (needle s : string) : bool :=
  starts_with needle s ||
  match s with
  | EmptyString => false
  | String _ s' => contains needle s'
  end.

Definition Contains (needle s : string) : Prop :=
  exists before after, s = before ++ needle ++ after.


(** The characters [binascii] takes as base64 digits once [-] and [_] are
    translated: letters, digits, [+], [/], [-] and [_]. *)
Definition is_data_char (c : ascii) : bool :=
  let n := N_of_ascii c in
  ((65 <=? n) && (n <=? 90) || (97 <=? n) && (n <=? 122)
   || (48 <=? n) && (n <=? 57)
   || (n =? 43) || (n =? 47) || (n =? 45) || (n =? 95))%N.

Fixpoint data_chars (s : string) : nat :=
  match s with
  | EmptyString => 0
  | String c rest => (if is_data_char c then 1 else 0) + data_chars rest
  end.

Definition is_ascii (s : string) : bool :=
  forallb (fun c => (N_of_ascii c <? 128)%N) (list_ascii_of_string s).

Definition has_pad (s : string) : bool :=
  existsb (fun c => Ascii.eqb c "=") (list_ascii_of_string s).

(** The bytes [urlsafe_b64decode] hands to [binascii], and the table entry
    of a character among them. *)
Definition translated (s : string) : list byte :=
  List.map base64._urlsafe_decode_translation (list_byte_of_string s).

Definition code_value (c : ascii) : N :=
  binascii.table_a2b_base64
    (Byte.to_N (base64._urlsafe_decode_translation (byte_of_ascii c))).



(** A reference base64 decoder, after RFC 4648: the text is read four
    characters at a time, each group of four digits is the 24-bit number of
    three bytes, the last group may end in one or two pad characters, and
    nothing else is accepted. *)
Module reference.

Inductive variant : Set := Standard | UrlSafe.

Definition digit (v : variant) (c : ascii) : option N :=
  let n := N_of_ascii c in
  (if (65 <=? n) && (n <=? 90) then Some (n - 65)
   else if (97 <=? n) && (n <=? 122) then Some (n - 97 + 26)
   else if (48 <=? n) && (n <=? 57) then Some (n - 48 + 52)
   else match v with
        | Standard =>
            if n =? 43 then Some 62 else if n =? 47 then Some 63 else None
        | UrlSafe =>
            if n =? 45 then Some 62 else if n =? 95 then Some 63 else None
        end)%N.

Definition is_pad (c : ascii) : bool := Ascii.eqb c "=".

Definition byte_of (n : N) : byte := byte_of_ascii (ascii_of_N (n mod 256)).

Fixpoint b64decode (v : variant) (s : string) : option (list byte) :=
  match s with
  | EmptyString => Some []
  | String a (String b (String c (String d rest))) =>
      match digit v a, digit v b with
      | Some x, Some y =>
          if is_pad c then
            if is_pad d && String.eqb rest EmptyString
            then Some [byte_of ((x * 64 + y) / 16)]
            else None
          else
            match digit v c with
            | None => None
            | Some z =>
                if is_pad d then
                  if String.eqb rest EmptyString
                  then Some [byte_of ((x * 4096 + y * 64 + z) / 1024);
                             byte_of ((x * 4096 + y * 64 + z) / 4)]
                  else None
                else
                  match digit v d, b64decode v rest with
                  | Some w, Some more =>
                      let n := (x * 262144 + y * 4096 + z * 64 + w)%N in
                      Some (byte_of (n / 65536) :: byte_of (n / 256)
                              :: byte_of n :: more)
                  | _, _ => None
                  end
            end
      | _, _ => None
      end
  | _ => None
  end.

(** Manual padding: to the next multiple of four. *)
Definition pad (s : string) : string :=
  s ++ str_mul "=" ((4 - String.length s mod 4) mod 4).

End reference.

(** Induction over a value and the values in it. *)
Section Value_nested_ind.
Variable P : Value -> Prop.
Hypothesis HInt : forall n, P (VInt n).
Hypothesis HBytes : forall b, P (VBytes b).
Hypothesis HStr : forall s, P (VStr s).
Hypothesis HBool : forall b, P (VBool b).
Hypothesis HNone : P VNone.
Hypothesis HFloat : forall repr, P (VFloat repr).
Hypothesis HList : forall items, Forall P items -> P (VList items).
Hypothesis HDict :
  forall items, Forall (fun kv => P (snd kv)) items -> P (VDict items).
Hypothesis HObj : forall cls text, P (VObj cls text).

End Value_nested_ind.





(** A text between double quotes. *)
Definition quoted (s : string) : string := json.chr 34 ++ s ++ json.chr 34.

(** What the literal of the script decodes to, and its rendering. *)
Definition sample_value : Value :=
  VDict
    [(VStr "digestID", VInt 5655);
     (VStr "random",
      VBytes [x1c; xdf; x83; x32; xf0; x4e; x68; x6a;
              xf9; x1b; x37; x92; x14; xf2; x08; x76]);
     (VStr "elementIdentifier", VStr "age_over_18");
     (VStr "elementValue", VBool true)].

Definition sample_pairs : list string :=
  [quoted "digestID" ++ ": 5655";
   quoted "random" ++ ": "
     ++ quoted "b'\\x1c\\xdf\\x832\\xf0Nhj\\xf9\\x1b7\\x92\\x14\\xf2\\x08v'";
   quoted "elementIdentifier" ++ ": " ++ quoted "age_over_18";
   quoted "elementValue" ++ ": true"].

Definition sample_text : string :=
  "{" ++ newline
  ++ String.concat ("," ++ newline) (List.map (append "  ") sample_pairs)
  ++ newline ++ "}".

(** A payload with [-] and [_] written as [+] and [/]: the same text in the
    standard alphabet. *)
Definition to_standard_char (c : ascii) : ascii :=
  if Ascii.eqb c "-" then "+"%char
  else if Ascii.eqb c "_" then "/"%char
  else c.

Fixpoint to_standard (s : string) : string :=
  match s with
  | EmptyString => EmptyString
  | String c rest => String (to_standard_char c) (to_standard rest)
  end.

(** * Properties *)

(** ** Strings *)

Lemma append_assoc (a b c : string) : (a ++ b) ++ c = a ++ (b ++ c).
Proof. induction a as [|x a IH]; simpl; [reflexivity | now rewrite IH]. Qed.

Lemma append_empty_r (a : string) : a ++ "" = a.
Proof. induction a as [|x a IH]; simpl; [reflexivity | now rewrite IH]. Qed.

Lemma starts_with_spec (needle s : string) :
  starts_with needle s = true <-> exists after, s = needle ++ after.
Proof.
  revert s; induction needle as [|a needle IH]; intros s; simpl.
  - split; [intros _; now exists s | reflexivity].
  - destruct s as [|b s].
    + split; [discriminate | intros [after H]; discriminate].
    + rewrite andb_true_iff, Ascii.eqb_eq, IH. split.
      * intros [-> [after ->]]. now exists after.
      * intros [after H]. injection H as -> ->. split; [reflexivity | now exists after].
Qed.

Lemma contains_spec (needle s : string) :
  contains needle s = true <-> Contains needle s.
Proof.
  unfold Contains. induction s as [|b s IH]; simpl.
  - rewrite orb_false_r, starts_with_spec. split.
    + intros [after H]. now exists "", after.
    + intros [[|x before] [after H]]; [now exists after | discriminate].
  - rewrite orb_true_iff, starts_with_spec, IH. split.
    + intros [[after H] | [before [after H]]].
      * now exists "", after.
      * exists (String b before), after. simpl. now rewrite H.
    + intros [[|x before] [after H]].
      * left. now exists after.
      * right. injection H as _ H. now exists before, after.
Qed.

Lemma Contains_append_l (needle a b : string) :
  Contains needle b -> Contains needle (a ++ b).
Proof.
  intros [before [after ->]]. exists (a ++ before), after.
  now rewrite append_assoc.
Qed.

Lemma Contains_append_r (needle a b : string) :
  Contains needle a -> Contains needle (a ++ b).
Proof.
  intros [before [after ->]]. exists before, (after ++ b).
  now rewrite !append_assoc.
Qed.

Lemma Contains_stdout (needle line : string) (printed : list string) :
  In line printed -> Contains needle line -> Contains needle (stdout printed).
Proof.
  induction printed as [|l printed IH]; [simpl; tauto |].
  intros Hin Hc.
  change (stdout (l :: printed)) with (l ++ newline ++ stdout printed).
  destruct Hin as [-> | Hin].
  - now apply Contains_append_r.
  - apply Contains_append_l, Contains_append_l. now apply IH.
Qed.

(** ** The script: what is caught and what is not *)

Section ScriptFacts.
Variable parse_cbor : list byte -> result Value.
Variable render : Value -> result string.

Lemma main_decoded (payload : string) (decoded : list byte) :
  decode_payload payload = Ok decoded ->
  main parse_cbor render payload =
    let (out, r) := try_except (show_parsed parse_cbor render decoded)
                               (fun e => diagnose_failure e decoded) in
    (("Decoded bytes length: " ++ str_of_N (N.of_nat (List.length decoded)))
       :: ("Hex dump (first 100 bytes): " ++ bytes_hex (firstn 100 decoded))
       :: out, r).
Proof.
  intros H. unfold main. rewrite H. unfold eval, bind, print.
  destruct (try_except _ _) as [out r]. reflexivity.
Qed.

Lemma show_parsed_raise (decoded : list byte) (e : exn) :
  parse_cbor decoded = Raise e ->
  show_parsed parse_cbor render decoded = ([], Raise e).
Proof. intros H. unfold show_parsed. now rewrite H. Qed.

Lemma diagnose_failure_cons (e : exn) (first : byte) (rest : list byte) :
  diagnose_failure e (first :: rest) =
    let (out, r) := classify first in
    (("Error parsing CBOR: " ++ exn_str e)
       :: (newline ++ "Raw byte analysis:")
       :: ("First byte: 0x" ++ format_02x first)
       :: out, r).
Proof.
  unfold diagnose_failure, eval, bind, print, index0.
  destruct (classify first) as [out r]. reflexivity.
Qed.

Lemma classify_ok (first : byte) : snd (classify first) = Ok tt.
Proof.
  unfold classify.
  destruct (_ =? 0xa4)%N; [reflexivity |]. destruct (_ =? 0xa5)%N; reflexivity.
Qed.

End ScriptFacts.

(** C1, as the script has it: an exception of [decode_payload] is not caught,
    the script ends with it and prints nothing; an exception of [parse_cbor]
    on bytes that are not empty is caught, its text is printed after
    "Error parsing CBOR: " and the script ends normally. *)
Theorem C1_parse_error_caught_decode_error_fatal :
  forall (parse_cbor : list byte -> result Value)
         (render : Value -> result string) (payload : string),
    (forall e, decode_payload payload = Raise e ->
               main parse_cbor render payload = ([], Raise e)) /\
    (forall decoded e,
        decode_payload payload = Ok decoded ->
        decoded <> [] ->
        parse_cbor decoded = Raise e ->
        exists printed,
          main parse_cbor render payload = (printed, Ok tt) /\
          In ("Error parsing CBOR: " ++ exn_str e) printed).
Proof.
  intros parse_cbor render payload. split.
  - intros e H. unfold main. now rewrite H.
  - intros decoded e Hdec Hne Hparse.
    rewrite (main_decoded _ _ _ _ Hdec), (show_parsed_raise _ _ _ _ Hparse).
    destruct decoded as [|first rest]; [congruence |].
    unfold try_except. rewrite diagnose_failure_cons.
    pose proof (classify_ok first) as Hc.
    destruct (classify first) as [out r]. simpl in Hc. subst r.
    eexists. split; [reflexivity |].
    simpl. right. right. left. reflexivity.
Qed.

(** C1 at two payloads: "A" does not decode, "o0AA" decodes to the three
    bytes a3 40 00, a mapping that is cut short. *)
Lemma C1_witness :
  main (cbor2.loads (fun _ => Ok VNone)) (json.dumps (fun _ => Ok "")) "A"
    = ([], Raise (Exn binascii_Error
         "Invalid base64-encoded string: number of data characters (1) cannot be 1 more than a multiple of 4"))
  /\ exists printed,
       main (cbor2.loads (fun _ => Ok VNone)) (json.dumps (fun _ => Ok "")) "o0AA" = (printed, Ok tt) /\
       In ("Error parsing CBOR: "
           ++ "premature end of stream (expected to read 1 bytes, got 0 instead)")
          printed.
Proof.
  split.
  - apply (proj1 (C1_parse_error_caught_decode_error_fatal
                    (cbor2.loads (fun _ => Ok VNone)) (json.dumps (fun _ => Ok "")) "A")).
    vm_compute. reflexivity.
  - apply (proj2 (C1_parse_error_caught_decode_error_fatal
                    (cbor2.loads (fun _ => Ok VNone)) (json.dumps (fun _ => Ok "")) "o0AA")
             [xa3; x40; x00]
             (Exn CBORDecodeEOF
                "premature end of stream (expected to read 1 bytes, got 0 instead)")).
    + vm_compute. reflexivity.
    + discriminate.
    + vm_compute. reflexivity.
Defined.

(** C1 as stated fails: the payload "A" makes [decode_payload] fail, and the
    script ends with that exception, nothing printed. *)
Lemma C1_decode_error_not_caught :
  (exists e, decode_payload "A" = Raise e) /\
  exists e, main (fun _ => Ok VNone) (json.dumps (fun _ => Ok "")) "A" = ([], Raise e).
Proof. split; eexists; vm_compute; reflexivity. Qed.

(** C2 fails on the code: on the empty byte sequence [diagnose_failure]
    prints two lines and raises IndexError at [decoded[0]]; the payload "="
    and the empty payload take the script there. *)
Theorem C2_diagnose_failure_raises_on_empty :
  (forall e,
      diagnose_failure e [] =
        (["Error parsing CBOR: " ++ exn_str e; newline ++ "Raw byte analysis:"],
         Raise (Exn IndexError "index out of range"))) /\
  (forall beyond deep,
      decode_payload "=" = Ok [] /\
      cbor2.loads beyond [] =
        Raise (Exn CBORDecodeEOF
          "premature end of stream (expected to read 1 bytes, got 0 instead)") /\
      snd (main (cbor2.loads beyond) (json.dumps deep) "=") =
        Raise (Exn IndexError "index out of range") /\
      snd (main (cbor2.loads beyond) (json.dumps deep) "") =
        Raise (Exn IndexError "index out of range")).
Proof.
  split.
  - intros e. reflexivity.
  - intros beyond deep. repeat split; vm_compute; reflexivity.
Qed.

(** C8: on bytes that start with 0xa4 [diagnose_failure] ends normally and
    prints the line "  -> This is a CBOR map with 4 keys", so its output
    contains "map" and "4"; on bytes that start with 0xa5 the same with 5. *)
Theorem C8_map_with_4_or_5_keys :
  forall (e : exn) (rest : list byte),
    (exists printed,
        diagnose_failure e (xa4 :: rest) = (printed, Ok tt) /\
        In "  -> This is a CBOR map with 4 keys" printed /\
        Contains "map" (stdout printed) /\ Contains "4" (stdout printed)) /\
    (exists printed,
        diagnose_failure e (xa5 :: rest) = (printed, Ok tt) /\
        In "  -> This is a CBOR map with 5 keys" printed /\
        Contains "map" (stdout printed) /\ Contains "5" (stdout printed)).
Proof.
  intros e rest. split; rewrite diagnose_failure_cons; cbn [classify];
    eexists; (split; [reflexivity |]).
  - assert (Hin : In "  -> This is a CBOR map with 4 keys"
                     ["Error parsing CBOR: " ++ exn_str e;
                      newline ++ "Raw byte analysis:";
                      "First byte: 0x" ++ format_02x xa4;
                      "  -> This is a CBOR map with 4 keys"])
      by (simpl; tauto).
    split; [exact Hin |].
    split; apply (Contains_stdout _ _ _ Hin), contains_spec; reflexivity.
  - assert (Hin : In "  -> This is a CBOR map with 5 keys"
                     ["Error parsing CBOR: " ++ exn_str e;
                      newline ++ "Raw byte analysis:";
                      "First byte: 0x" ++ format_02x xa5;
                      "  -> This is a CBOR map with 5 keys"])
      by (simpl; tauto).
    split; [exact Hin |].
    split; apply (Contains_stdout _ _ _ Hin), contains_spec; reflexivity.
Qed.

(** C9 as stated fails: 0xb0 is an initial byte of major type 5 whose low
    five bits are 16, and the diagnosis prints the byte and nothing about a
    map or a count. *)
Lemma C9_b0_not_classified :
  N.shiftr (Byte.to_N xb0) 5 = 5%N /\
  N.land (Byte.to_N xb0) 31 = 16%N /\
  exists printed,
    diagnose_failure (Exn CBORDecodeEOF "") [xb0] = (printed, Ok tt) /\
    contains "map" (stdout printed) = false /\
    contains "16" (stdout printed) = false.
Proof.
  split; [reflexivity |]. split; [reflexivity |].
  eexists. split; [reflexivity |]. split; vm_compute; reflexivity.
Qed.

(** C9, as the script has it: the classifier knows 0xa4 and 0xa5 only; for
    any other first byte, of major type 5 or not, the diagnosis ends with the
    line that shows the byte in hex. *)
Theorem C9_only_a4_a5_classified :
  forall (e : exn) (first : byte) (rest : list byte),
    Byte.to_N first <> 0xa4%N ->
    Byte.to_N first <> 0xa5%N ->
    diagnose_failure e (first :: rest) =
      (["Error parsing CBOR: " ++ exn_str e;
        newline ++ "Raw byte analysis:";
        "First byte: 0x" ++ format_02x first],
       Ok tt).
Proof.
  intros e first rest H4 H5. rewrite diagnose_failure_cons. unfold classify.
  apply N.eqb_neq in H4, H5. now rewrite H4, H5.
Qed.

Lemma C9_witness :
  diagnose_failure (Exn CBORDecodeEOF "") [xb0; x00] =
    (["Error parsing CBOR: "; newline ++ "Raw byte analysis:"; "First byte: 0xb0"],
     Ok tt).
Proof.
  apply (C9_only_a4_a5_classified (Exn CBORDecodeEOF "") xb0 [x00]);
    vm_compute; discriminate.
Defined.

(** C10 as stated fails: for the payload "A" the decode of line 10 raises and
    the script prints nothing, neither a length nor a hex dump. *)
Lemma C10_nothing_printed_when_decode_fails :
  (exists e, decode_payload "A" = Raise e) /\
  fst (main (fun _ => Ok VNone) (json.dumps (fun _ => Ok "")) "A") = [].
Proof. split; [eexists |]; vm_compute; reflexivity. Qed.

(** C10, as the script has it: once the payload is decoded, the first two
    lines the script prints are the length of the bytes and the hex dump of
    the first hundred, and all that the [try] statement prints, parse or
    failure, comes after; when the decode of line 10 raises, nothing is
    printed. *)
Theorem C10_length_and_hex_dump_first :
  forall (parse_cbor : list byte -> result Value)
         (render : Value -> result string)
         (payload : string),
    (forall decoded,
        decode_payload payload = Ok decoded ->
        exists rest,
          main parse_cbor render payload =
            (("Decoded bytes length: "
                ++ str_of_N (N.of_nat (List.length decoded)))
               :: ("Hex dump (first 100 bytes): "
                     ++ bytes_hex (firstn 100 decoded))
               :: rest,
             snd (try_except (show_parsed parse_cbor render decoded)
                             (fun e => diagnose_failure e decoded))) /\
          rest = fst (try_except (show_parsed parse_cbor render decoded)
                                 (fun e => diagnose_failure e decoded))) /\
    (forall e,
        decode_payload payload = Raise e ->
        fst (main parse_cbor render payload) = []).
Proof.
  intros parse_cbor render payload. split.
  - intros decoded H. rewrite (main_decoded _ _ _ _ H).
    destruct (try_except _ _) as [out r]. now exists out.
  - intros e H. unfold main. now rewrite H.
Qed.

(** C10 where the parse succeeds, the payload "9Q" being the byte f5, [True],
    and where the decode fails. *)
Lemma C10_witness :
  (exists rest,
      main (cbor2.loads (fun _ => Ok VNone)) (json.dumps (fun _ => Ok "")) "9Q" =
        ("Decoded bytes length: 1" :: "Hex dump (first 100 bytes): f5" :: rest,
         Ok tt) /\
      rest = [newline ++ "Parsed CBOR structure:"; "true"]) /\
  fst (main (cbor2.loads (fun _ => Ok VNone)) (json.dumps (fun _ => Ok "")) "A")
  = [].
Proof.
  split.
  - destruct (proj1 (C10_length_and_hex_dump_first
                       (cbor2.loads (fun _ => Ok VNone))
                       (json.dumps (fun _ => Ok "")) "9Q") [xf5])
      as [rest [Hmain Hrest]].
    + vm_compute. reflexivity.
    + exists rest. split; [exact Hmain | exact Hrest].
  - apply (proj2 (C10_length_and_hex_dump_first
                    (cbor2.loads (fun _ => Ok VNone))
                    (json.dumps (fun _ => Ok "")) "A")
             (Exn binascii_Error
                "Invalid base64-encoded string: number of data characters (1) cannot be 1 more than a multiple of 4")).
    vm_compute. reflexivity.
Defined.

(** ** Rendering *)











(** C4 as stated fails: the literal decodes to a mapping of four entries,
    not five. *)
Lemma C4_sample_has_four_entries :
  exists decoded entries,
    decode_payload base64_data = Ok decoded /\
    cbor2.decode decoded = Parsed (VDict entries) /\
    List.length entries = 4 /\ List.length entries <> 5.
Proof.
  eexists. eexists. split; [vm_compute; reflexivity |].
  split; [vm_compute; reflexivity |]. split; [reflexivity | discriminate].
Qed.

(** C4, as the script has it: the literal decodes to 81 bytes that parse to
    a mapping of four entries, digestID to 5655, random to a byte string of
    16 bytes, elementIdentifier to "age_over_18", elementValue to True; the
    rendering is [sample_text], the last thing the script prints, and each of
    the four key and value pairs is in it. *)
Theorem C4_sample_parses_and_renders :
  forall (beyond : list byte -> result Value) (deep : Value -> result string),
    (exists decoded,
        decode_payload base64_data = Ok decoded /\
        List.length decoded = 81 /\
        cbor2.loads beyond decoded = Ok sample_value) /\
    json.dumps deep sample_value = Ok sample_text /\
    (exists dump,
        script beyond deep =
          (["Decoded bytes length: 81"; dump;
            newline ++ "Parsed CBOR structure:"; sample_text],
           Ok tt)) /\
    Forall (fun pair => Contains pair sample_text) sample_pairs.
Proof.
  intros beyond deep. split; [| split; [| split]].
  - eexists. split; [vm_compute; reflexivity |].
    split; vm_compute; reflexivity.
  - vm_compute. reflexivity.
  - eexists. vm_compute. reflexivity.
  - repeat constructor; apply contains_spec; vm_compute; reflexivity.
Qed.







(** ** Base64 *)

Lemma list_byte_of_string_app (a b : string) :
  list_byte_of_string (a ++ b) = (list_byte_of_string a ++ list_byte_of_string b)%list.
Proof.
  induction a as [|c a IH]; [reflexivity |].
  change (byte_of_ascii c :: list_byte_of_string (a ++ b)
          = byte_of_ascii c :: (list_byte_of_string a ++ list_byte_of_string b)%list).
  now rewrite IH.
Qed.

Lemma translated_app (a b : string) :
  translated (a ++ b) = (translated a ++ translated b)%list.
Proof. unfold translated. now rewrite list_byte_of_string_app, map_app. Qed.

Lemma translated_String (c : ascii) (s : string) :
  translated (String c s)
  = base64._urlsafe_decode_translation (byte_of_ascii c) :: translated s.
Proof. reflexivity. Qed.

Lemma is_ascii_app (a b : string) :
  is_ascii (a ++ b) = is_ascii a && is_ascii b.
Proof.
  unfold is_ascii. induction a as [|c a IH]; [reflexivity |].
  simpl. now rewrite IH, andb_assoc.
Qed.

Lemma is_ascii_pads (n : nat) : is_ascii (str_mul "=" n) = true.
Proof. induction n as [|n IH]; [reflexivity | exact IH]. Qed.

Lemma str_mul_length (n : nat) : String.length (str_mul "=" n) = n.
Proof. induction n as [|n IH]; simpl; [reflexivity | now rewrite IH]. Qed.

Lemma urlsafe_b64decode_unfold (s : string) :
  base64.urlsafe_b64decode s =
    if is_ascii s then binascii.a2b_loop (translated s) 0 0 0 []
    else Raise (Exn ValueError "string argument should contain only ASCII characters").
Proof.
  unfold base64.urlsafe_b64decode, base64._bytes_from_decode_data,
    base64.b64decode, binascii.a2b_base64, translated.
  fold (is_ascii s). now destruct (is_ascii s).
Qed.

(** One turn of the loop, by the kind of the character. *)
Lemma a2b_loop_pad (b : byte) (rest : list byte) (q lc p : N) (bin : list byte) :
  Byte.to_N b = 61%N ->
  binascii.a2b_loop (b :: rest) q lc p bin =
    if (2 <=? q)%N then
      if (4 <=? q + (p + 1))%N then Ok bin
      else binascii.a2b_loop rest q lc (p + 1)%N bin
    else binascii.a2b_loop rest q lc p bin.
Proof. intros H. simpl. rewrite H. reflexivity. Qed.

Lemma a2b_loop_skip (b : byte) (rest : list byte) (q lc p : N) (bin : list byte) :
  (Byte.to_N b =? 61)%N = false ->
  (64 <=? binascii.table_a2b_base64 (Byte.to_N b))%N = true ->
  binascii.a2b_loop (b :: rest) q lc p bin = binascii.a2b_loop rest q lc p bin.
Proof.
  intros H1 H2. simpl. unfold binascii.BASE64_PAD. now rewrite H1, H2.
Qed.

Lemma a2b_loop_digit (b : byte) (rest : list byte) (q lc p : N) (bin : list byte) :
  (Byte.to_N b =? 61)%N = false ->
  (64 <=? binascii.table_a2b_base64 (Byte.to_N b))%N = false ->
  binascii.a2b_loop (b :: rest) q lc p bin =
    let x := binascii.table_a2b_base64 (Byte.to_N b) in
    if (q =? 0)%N then binascii.a2b_loop rest 1 x 0 bin
    else if (q =? 1)%N then
      binascii.a2b_loop rest 2 (N.land x 15) 0
        (bin ++ [uchar (N.lor (N.shiftl lc 2) (N.shiftr x 4))])
    else if (q =? 2)%N then
      binascii.a2b_loop rest 3 (N.land x 3) 0
        (bin ++ [uchar (N.lor (N.shiftl lc 4) (N.shiftr x 2))])
    else
      binascii.a2b_loop rest 0 0 0 (bin ++ [uchar (N.lor (N.shiftl lc 6) x)]).
Proof.
  intros H1 H2. simpl. unfold binascii.BASE64_PAD. now rewrite H1, H2.
Qed.

(** Pad characters between groups are passed over. *)
Lemma a2b_loop_pads_at_0 (n : nat) (lc p : N) (bin : list byte) :
  binascii.a2b_loop (translated (str_mul "=" n)) 0 lc p bin = Ok bin.
Proof.
  induction n as [|n IH]; [reflexivity |].
  change (str_mul "=" (S n)) with (String "=" (str_mul "=" n)).
  rewrite translated_String, a2b_loop_pad by reflexivity. exact IH.
Qed.

(** What the table holds for a character, after the translation. *)
Lemma char_facts (c : ascii) :
  Ascii.eqb c "=" = false ->
  (Byte.to_N (base64._urlsafe_decode_translation (byte_of_ascii c)) =? 61)%N = false /\
  (64 <=? code_value c)%N = negb (is_data_char c).
Proof.
  destruct c as [[|] [|] [|] [|] [|] [|] [|] [|]]; intros H;
    try discriminate H; split; vm_compute; reflexivity.
Qed.

Lemma digit_facts (v : reference.variant) (c : ascii) (x : N) :
  reference.digit v c = Some x ->
  Ascii.eqb c "=" = false /\ (N_of_ascii c <? 128)%N = true /\
  is_data_char c = true /\ code_value c = x /\ (x < 64)%N.
Proof.
  destruct v; destruct c as [[|] [|] [|] [|] [|] [|] [|] [|]]; intros H;
    vm_compute in H; try discriminate H; injection H as <-;
    repeat split; vm_compute; reflexivity.
Qed.

(** The shifts of the loop against the arithmetic of the reference, checked
    on every value of the digits. *)
Lemma below_64 (x : N) : (x < 64)%N -> In x (List.map N.of_nat (seq 0 64)).
Proof.
  intros H. rewrite <- (N2Nat.id x). apply in_map, in_seq. lia.
Qed.

Lemma byte1_shifts (x y : N) :
  (x < 64)%N -> (y < 64)%N ->
  uchar (N.lor (N.shiftl x 2) (N.shiftr y 4)) = reference.byte_of ((x * 64 + y) / 16).
Proof.
  intros Hx Hy. apply below_64 in Hx, Hy.
  assert (H : forallb (fun x => forallb (fun y =>
                Byte.eqb (uchar (N.lor (N.shiftl x 2) (N.shiftr y 4)))
                         (reference.byte_of ((x * 64 + y) / 16)))
                (List.map N.of_nat (seq 0 64))) (List.map N.of_nat (seq 0 64)) = true)
    by (vm_compute; reflexivity).
  rewrite forallb_forall in H. specialize (H x Hx).
  rewrite forallb_forall in H. now apply Byte.byte_dec_bl, H.
Qed.

Lemma byte2_shifts (x y z : N) :
  (x < 64)%N -> (y < 64)%N -> (z < 64)%N ->
  uchar (N.lor (N.shiftl (N.land y 15) 4) (N.shiftr z 2))
  = reference.byte_of ((x * 4096 + y * 64 + z) / 4).
Proof.
  intros Hx Hy Hz. apply below_64 in Hx, Hy, Hz.
  assert (H : forallb (fun x => forallb (fun y => forallb (fun z =>
                Byte.eqb (uchar (N.lor (N.shiftl (N.land y 15) 4) (N.shiftr z 2)))
                         (reference.byte_of ((x * 4096 + y * 64 + z) / 4)))
                (List.map N.of_nat (seq 0 64))) (List.map N.of_nat (seq 0 64)))
                (List.map N.of_nat (seq 0 64)) = true)
    by (vm_compute; reflexivity).
  rewrite forallb_forall in H. specialize (H x Hx).
  rewrite forallb_forall in H. specialize (H y Hy).
  rewrite forallb_forall in H. now apply Byte.byte_dec_bl, H.
Qed.

Lemma byte3_shifts (z w : N) :
  (z < 64)%N -> (w < 64)%N ->
  uchar (N.lor (N.shiftl (N.land z 3) 6) w) = reference.byte_of (z * 64 + w).
Proof.
  intros Hz Hw. apply below_64 in Hz, Hw.
  assert (H : forallb (fun z => forallb (fun w =>
                Byte.eqb (uchar (N.lor (N.shiftl (N.land z 3) 6) w))
                         (reference.byte_of (z * 64 + w)))
                (List.map N.of_nat (seq 0 64))) (List.map N.of_nat (seq 0 64)) = true)
    by (vm_compute; reflexivity).
  rewrite forallb_forall in H. specialize (H z Hz).
  rewrite forallb_forall in H. now apply Byte.byte_dec_bl, H.
Qed.

Lemma quotient_of (n d q r : N) :
  n = (q * d + r)%N -> (r < d)%N -> (n / d = q)%N.
Proof.
  intros -> Hr. symmetry. apply (N.div_unique _ d q r); lia.
Qed.

Lemma group_bytes (x y z w : N) :
  (x < 64)%N -> (y < 64)%N -> (z < 64)%N -> (w < 64)%N ->
  let n := (x * 262144 + y * 4096 + z * 64 + w)%N in
  reference.byte_of (n / 65536) = reference.byte_of ((x * 64 + y) / 16) /\
  reference.byte_of (n / 256) = reference.byte_of ((x * 4096 + y * 64 + z) / 4) /\
  reference.byte_of n = reference.byte_of (z * 64 + w).
Proof.
  intros Hx Hy Hz Hw n. repeat split.
  - f_equal.
    pose proof (N.div_mod (x * 64 + y) 16 ltac:(lia)) as E.
    pose proof (N.mod_upper_bound (x * 64 + y) 16 ltac:(lia)) as B.
    apply (quotient_of _ _ _ (((x * 64 + y) mod 16) * 4096 + z * 64 + w)); subst n; lia.
  - f_equal.
    pose proof (N.div_mod (x * 4096 + y * 64 + z) 4 ltac:(lia)) as E.
    pose proof (N.mod_upper_bound (x * 4096 + y * 64 + z) 4 ltac:(lia)) as B.
    apply (quotient_of _ _ _ (((x * 4096 + y * 64 + z) mod 4) * 64 + w)); subst n; lia.
  - unfold reference.byte_of. do 2 f_equal.
    replace n with (z * 64 + w + (x * 1024 + y * 16) * 256)%N by (subst n; lia).
    apply N.Div0.mod_add.
Qed.

Lemma pair_byte (x y z : N) :
  (x < 64)%N -> (y < 64)%N -> (z < 64)%N ->
  reference.byte_of ((x * 4096 + y * 64 + z) / 1024)
  = reference.byte_of ((x * 64 + y) / 16).
Proof.
  intros Hx Hy Hz. f_equal.
  pose proof (N.div_mod (x * 64 + y) 16 ltac:(lia)) as E.
  pose proof (N.mod_upper_bound (x * 64 + y) 16 ltac:(lia)) as B.
  apply (quotient_of _ _ _ (((x * 64 + y) mod 16) * 64 + z)); lia.
Qed.

Lemma digit_byte (v : reference.variant) (c : ascii) (x : N) :
  reference.digit v c = Some x ->
  let b := base64._urlsafe_decode_translation (byte_of_ascii c) in
  (Byte.to_N b =? 61)%N = false /\
  (64 <=? binascii.table_a2b_base64 (Byte.to_N b))%N = false /\
  binascii.table_a2b_base64 (Byte.to_N b) = x.
Proof.
  intros H b. destruct (digit_facts _ _ _ H) as [Hpad [_ [Hdata [Hval _]]]].
  destruct (char_facts _ Hpad) as [H61 H64]. fold (code_value c) in *.
  rewrite Hdata in H64. subst b. fold (code_value c). auto.
Qed.

(** A digit at each of the four places of a group, a pad where the group may
    end. *)
Section Turns.
Variables (b : byte) (x : N) (rest : list byte) (lc p : N) (bin : list byte).
Hypothesis not_pad : (Byte.to_N b =? 61)%N = false.
Hypothesis in_table : (64 <=? binascii.table_a2b_base64 (Byte.to_N b))%N = false.
Hypothesis value : binascii.table_a2b_base64 (Byte.to_N b) = x.

Lemma digit_at_0 :
  binascii.a2b_loop (b :: rest) 0 lc p bin = binascii.a2b_loop rest 1 x 0 bin.
Proof. rewrite a2b_loop_digit by assumption. now rewrite value. Qed.

Lemma digit_at_1 :
  binascii.a2b_loop (b :: rest) 1 lc p bin =
    binascii.a2b_loop rest 2 (N.land x 15) 0
      (bin ++ [uchar (N.lor (N.shiftl lc 2) (N.shiftr x 4))]).
Proof. rewrite a2b_loop_digit by assumption. now rewrite value. Qed.

Lemma digit_at_2 :
  binascii.a2b_loop (b :: rest) 2 lc p bin =
    binascii.a2b_loop rest 3 (N.land x 3) 0
      (bin ++ [uchar (N.lor (N.shiftl lc 4) (N.shiftr x 2))]).
Proof. rewrite a2b_loop_digit by assumption. now rewrite value. Qed.

Lemma digit_at_3 :
  binascii.a2b_loop (b :: rest) 3 lc p bin =
    binascii.a2b_loop rest 0 0 0 (bin ++ [uchar (N.lor (N.shiftl lc 6) x)]).
Proof. rewrite a2b_loop_digit by assumption. now rewrite value. Qed.
End Turns.

Lemma two_pads_at_2 (rest : list byte) (lc : N) (bin : list byte) :
  binascii.a2b_loop ("="%byte :: "="%byte :: rest) 2 lc 0 bin = Ok bin.
Proof. reflexivity. Qed.

Lemma pad_at_3 (rest : list byte) (lc p : N) (bin : list byte) :
  binascii.a2b_loop ("="%byte :: rest) 3 lc p bin = Ok bin.
Proof.
  rewrite a2b_loop_pad by reflexivity.
  change (2 <=? 3)%N with true. cbv iota.
  replace (4 <=? 3 + (p + 1))%N with true; [reflexivity |].
  symmetry. apply N.leb_le. lia.
Qed.

Lemma is_pad_eq (c : ascii) : reference.is_pad c = true -> c = "="%char.
Proof. apply Ascii.eqb_eq. Qed.

Lemma is_ascii_String (c : ascii) (s : string) :
  is_ascii (String c s) = (N_of_ascii c <? 128)%N && is_ascii s.
Proof. reflexivity. Qed.

(** Where the reference decoder accepts a text, the loop of [binascii] writes
    the same bytes, whatever pad characters follow the text. *)
Lemma a2b_follows_reference (v : reference.variant) :
  forall (n : nat) (s : string),
    String.length s <= n ->
    forall bs,
      reference.b64decode v s = Some bs ->
      is_ascii s = true /\
      forall extra lc p bin,
        binascii.a2b_loop (translated s ++ translated (str_mul "=" extra)) 0 lc p bin
        = Ok (bin ++ bs)%list.
Proof.
  induction n as [|n IH]; intros s Hlen bs H.
  - destruct s; [| simpl in Hlen; lia]. injection H as <-.
    split; [reflexivity |]. intros. simpl app.
    now rewrite a2b_loop_pads_at_0, app_nil_r.
  - destruct s as [|a [|b [|c [|d rest]]]]; try discriminate H.
    + injection H as <-. split; [reflexivity |]. intros. simpl app.
      now rewrite a2b_loop_pads_at_0, app_nil_r.
    + cbn [reference.b64decode] in H.
      destruct (reference.digit v a) as [x|] eqn:Ha; [| discriminate H].
      destruct (reference.digit v b) as [y|] eqn:Hb; [| discriminate H].
      destruct (digit_facts _ _ _ Ha) as [_ [Aa [_ [_ Xa]]]].
      destruct (digit_facts _ _ _ Hb) as [_ [Ab [_ [_ Xb]]]].
      destruct (digit_byte _ _ _ Ha) as [Pa [Ta Va]].
      destruct (digit_byte _ _ _ Hb) as [Pb [Tb Vb]].
      rewrite !is_ascii_String, Aa, Ab. cbn [andb].
      rewrite !translated_String. cbn [app].
      destruct (reference.is_pad c) eqn:Hc.
      * destruct (reference.is_pad d && String.eqb rest "") eqn:Hd;
          [| discriminate H].
        apply andb_true_iff in Hd. destruct Hd as [Hd Hrest].
        apply is_pad_eq in Hc, Hd. apply String.eqb_eq in Hrest. subst c d rest.
        injection H as <-. split; [reflexivity |]. intros.
        rewrite (digit_at_0 _ x), (digit_at_1 _ y) by assumption.
        change (base64._urlsafe_decode_translation (byte_of_ascii "=")) with "="%byte.
        rewrite two_pads_at_2. now rewrite byte1_shifts.
      * destruct (reference.digit v c) as [z|] eqn:Hz; [| discriminate H].
        destruct (digit_facts _ _ _ Hz) as [_ [Ac [_ [_ Xc]]]].
        destruct (digit_byte _ _ _ Hz) as [Pc [Tc Vc]].
        rewrite Ac. cbn [andb].
        destruct (reference.is_pad d) eqn:Hd.
        -- destruct (String.eqb rest "") eqn:Hrest; [| discriminate H].
           apply is_pad_eq in Hd. apply String.eqb_eq in Hrest. subst d rest.
           injection H as <-. split; [reflexivity |]. intros.
           rewrite (digit_at_0 _ x), (digit_at_1 _ y), (digit_at_2 _ z)
             by assumption.
           change (base64._urlsafe_decode_translation (byte_of_ascii "="))
             with "="%byte.
           rewrite pad_at_3, byte1_shifts, (byte2_shifts x), pair_byte
             by assumption.
           now rewrite <- app_assoc.
        -- destruct (reference.digit v d) as [w|] eqn:Hw; [| discriminate H].
           destruct (reference.b64decode v rest) as [more|] eqn:Hmore;
             [| discriminate H].
           destruct (digit_facts _ _ _ Hw) as [_ [Ad [_ [_ Xd]]]].
           destruct (digit_byte _ _ _ Hw) as [Pd [Td Vd]].
           injection H as <-.
           destruct (IH rest ltac:(simpl in Hlen; lia) more Hmore) as [Hascii Hloop].
           rewrite Ad, Hascii. split; [reflexivity |]. intros.
           rewrite (digit_at_0 _ x), (digit_at_1 _ y), (digit_at_2 _ z),
             (digit_at_3 _ w) by assumption.
           rewrite Hloop, byte1_shifts, (byte2_shifts x), byte3_shifts
             by assumption.
           destruct (group_bytes x y z w Xa Xb Xc Xd) as [G1 [G2 G3]].
           rewrite G1, G2, G3. now rewrite <- !app_assoc.
Qed.

(** What line 10 decodes is the manually padded payload, followed by four
    more pad characters when the length is a multiple of four already. *)
Lemma padded_payload (payload : string) :
  exists extra,
    payload ++ padding payload = reference.pad payload ++ str_mul "=" extra.
Proof.
  unfold padding, reference.pad.
  pose proof (Nat.mod_upper_bound (String.length payload) 4 ltac:(lia)) as Hr.
  destruct (String.length payload mod 4) as [|[|[|[|r]]]]; [| | | | lia].
  - exists 4. cbn [Nat.sub Nat.modulo Nat.divmod fst snd str_mul].
    now rewrite !append_assoc.
  - exists 0. cbn. now rewrite !append_assoc.
  - exists 0. cbn. now rewrite !append_assoc.
  - exists 0. cbn. now rewrite !append_assoc.
Qed.

(** C5 as stated fails: to the payload "AAAA" line 10 appends four pad
    characters, where (4 - len % 4) % 4 is none. *)
Lemma C5_four_pads_appended :
  padding "AAAA" = "====" /\
  String.length (padding "AAAA") <> (4 - String.length "AAAA" mod 4) mod 4.
Proof. split; [reflexivity | vm_compute; discriminate]. Qed.

(** C5, as the script has it: line 10 appends 4 - len % 4 pad characters,
    from one to four, and whenever a reference decoder, of the standard or of
    the URL-safe alphabet, accepts the payload padded by hand to a multiple
    of four, [decode_payload] returns the same bytes. *)
Theorem C5_decode_payload_matches_reference :
  forall (v : reference.variant) (payload : string) (bs : list byte),
    reference.b64decode v (reference.pad payload) = Some bs ->
    padding payload = str_mul "=" (4 - String.length payload mod 4) /\
    1 <= String.length (padding payload) <= 4 /\
    decode_payload payload = Ok bs.
Proof.
  intros v payload bs H. split; [reflexivity |]. split.
  - unfold padding. rewrite str_mul_length.
    pose proof (Nat.mod_upper_bound (String.length payload) 4 ltac:(lia)). lia.
  - unfold decode_payload. destruct (padded_payload payload) as [extra ->].
    destruct (a2b_follows_reference v _ _ (le_n _) _ H) as [Hascii Hloop].
    rewrite urlsafe_b64decode_unfold, is_ascii_app, Hascii, is_ascii_pads.
    cbn [andb]. rewrite translated_app. apply Hloop.
Qed.

(** C5 at the literal of the script, which has a [+] in it, and at a payload
    of the URL-safe alphabet that lacks two pad characters. *)
Lemma C5_witness :
  (exists bs,
      padding base64_data = "====" /\
      1 <= String.length (padding base64_data) <= 4 /\
      decode_payload base64_data = Ok bs /\ List.length bs = 81) /\
  (padding "-_8_-w" = "==" /\
   1 <= String.length (padding "-_8_-w") <= 4 /\
   decode_payload "-_8_-w" = Ok [xfb; xff; x3f; xfb]).
Proof.
  split.
  - destruct (reference.b64decode reference.Standard (reference.pad base64_data))
      as [bs|] eqn:Href; [| vm_compute in Href; discriminate Href].
    exists bs.
    destruct (C5_decode_payload_matches_reference reference.Standard base64_data bs Href)
      as [Hpad [Hlen Hdec]].
    repeat split; try assumption; try apply Hlen.
    vm_compute in Href. injection Href as <-. reflexivity.
  - apply (C5_decode_payload_matches_reference reference.UrlSafe "-_8_-w").
    vm_compute. reflexivity.
Defined.

Lemma has_pad_String (c : ascii) (s : string) :
  has_pad (String c s) = Ascii.eqb c "=" || has_pad s.
Proof. reflexivity. Qed.

(** Over a text with no pad character the loop counts the digits modulo
    four and passes over the rest; [pads] stays 0. *)
Lemma a2b_loop_counts (s : string) :
  has_pad s = false ->
  forall (q : nat) (lc : N) (bin : list byte),
    q < 4 ->
    exists lc' bin',
    forall tail,
      binascii.a2b_loop (translated s ++ tail) (N.of_nat q) lc 0 bin
      = binascii.a2b_loop tail (N.of_nat ((q + data_chars s) mod 4)) lc' 0 bin'.
Proof.
  induction s as [|c s IH]; intros Hpad q lc bin Hq.
  - exists lc, bin. intros tail. cbn [data_chars translated app].
    now rewrite Nat.add_0_r, Nat.mod_small.
  - rewrite has_pad_String in Hpad. apply orb_false_iff in Hpad.
    destruct Hpad as [Hc Hs]. destruct (char_facts c Hc) as [H61 H64].
    cbn [data_chars]. destruct (is_data_char c).
    + assert (Hstep : exists lc1 bin1, forall rest,
                binascii.a2b_loop
                  (base64._urlsafe_decode_translation (byte_of_ascii c) :: rest)
                  (N.of_nat q) lc 0 bin
                = binascii.a2b_loop rest (N.of_nat ((q + 1) mod 4)) lc1 0 bin1).
      { destruct q as [|[|[|[|q]]]]; [| | | | lia];
          eexists; eexists; intros rest.
        - apply digit_at_0; [exact H61 | exact H64 | reflexivity].
        - apply digit_at_1; [exact H61 | exact H64 | reflexivity].
        - apply digit_at_2; [exact H61 | exact H64 | reflexivity].
        - apply digit_at_3; [exact H61 | exact H64 | reflexivity]. }
      destruct Hstep as [lc1 [bin1 Hstep]].
      destruct (IH Hs ((q + 1) mod 4) lc1 bin1) as [lc' [bin' Hrest]].
      { apply Nat.mod_upper_bound. lia. }
      exists lc', bin'. intros tail.
      rewrite translated_String. cbn [app]. rewrite Hstep, Hrest.
      do 2 f_equal. rewrite Nat.Div0.add_mod_idemp_l. f_equal. lia.
    + destruct (IH Hs q lc bin Hq) as [lc' [bin' Hrest]].
      exists lc', bin'. intros tail.
      rewrite translated_String. cbn [app].
      rewrite a2b_loop_skip by assumption. now rewrite Hrest.
Qed.

(** How the loop ends on the pad characters of line 10, from one to four,
    by the place in the group it has reached. *)
Lemma a2b_loop_ends (q k : nat) (lc : N) (bin : list byte) :
  q < 4 -> 1 <= k <= 4 ->
  (q = 1 \/ (q = 2 /\ k = 1) ->
   exists e, binascii.a2b_loop (translated (str_mul "=" k)) (N.of_nat q) lc 0 bin
             = Raise e /\ exn_type e = binascii_Error) /\
  (~ (q = 1 \/ (q = 2 /\ k = 1)) ->
   binascii.a2b_loop (translated (str_mul "=" k)) (N.of_nat q) lc 0 bin = Ok bin).
Proof.
  intros Hq Hk.
  destruct q as [|[|[|[|q]]]]; [| | | | lia];
    destruct k as [|[|[|[|[|k]]]]]; try lia;
    (split; intros H; [try lia; eexists; split; reflexivity | try lia; reflexivity]).
Qed.

(** C6 as stated fails: "AAA!" has a character outside the alphabet and
    [decode_payload] returns two bytes for it; its length after line 10 is
    a multiple of four, as it is for any payload. *)
Lemma C6_outside_character_accepted :
  reference.digit reference.UrlSafe "!" = None /\
  contains "!" "AAA!" = true /\
  decode_payload "AAA!" = Ok [x00; x00] /\
  String.length ("AAA!" ++ padding "AAA!") mod 4 = 0.
Proof. repeat split; vm_compute; reflexivity. Qed.

(** C6, as the library has it: a payload with a character that is not ASCII
    fails with ValueError; for an ASCII payload with no pad character of its
    own, [decode_payload] fails, with binascii.Error, exactly when the number
    [n] of its characters that are letters, digits, [+], [/], [-] or [_] has
    [n % 4 = 1], or [n % 4 = 2] while [len % 4 = 3]; any other character is
    passed over, and in every other case the bytes are returned. *)
Theorem C6_when_decode_payload_fails :
  forall payload : string,
    (is_ascii payload = false ->
     exists e, decode_payload payload = Raise e /\ exn_type e = ValueError) /\
    (is_ascii payload = true ->
     has_pad payload = false ->
     let n := data_chars payload in
     let fails := n mod 4 = 1 \/ (n mod 4 = 2 /\ String.length payload mod 4 = 3) in
     (fails ->
      exists e, decode_payload payload = Raise e /\ exn_type e = binascii_Error) /\
     (~ fails -> exists bs, decode_payload payload = Ok bs)).
Proof.
  intros payload. unfold decode_payload. rewrite urlsafe_b64decode_unfold.
  unfold padding. rewrite is_ascii_app, is_ascii_pads, andb_true_r. split.
  - intros ->. eexists. split; reflexivity.
  - intros -> Hpad. rewrite translated_app.
    destruct (a2b_loop_counts payload Hpad 0 0%N [] ltac:(lia)) as [lc [bin Hloop]].
    change (binascii.a2b_loop ?l 0 0 0 []) with (binascii.a2b_loop l (N.of_nat 0) 0 0 []).
    rewrite Hloop. cbn [Nat.add]. set (n := data_chars payload).
    pose proof (Nat.mod_upper_bound n 4 ltac:(lia)) as Hq.
    pose proof (Nat.mod_upper_bound (String.length payload) 4 ltac:(lia)) as Hr.
    destruct (a2b_loop_ends (n mod 4) (4 - String.length payload mod 4) lc bin Hq
                ltac:(lia)) as [Hfail Hok].
    split.
    + intros Hf. apply Hfail. lia.
    + intros Hf. exists bin. apply Hok. lia.
Qed.

(** C6 at three payloads: one that is not ASCII, one of five digits, and one
    where an outside character leaves two digits and one pad character. *)
Lemma C6_witness :
  (exists e, decode_payload (String (ascii_of_N 233) "AAA") = Raise e /\
             exn_type e = ValueError) /\
  (exists e, decode_payload "AAAAA" = Raise e /\ exn_type e = binascii_Error) /\
  (exists e, decode_payload "AA!" = Raise e /\ exn_type e = binascii_Error) /\
  (exists bs, decode_payload "AAA!" = Ok bs).
Proof.
  split; [| split; [| split]].
  - apply (proj1 (C6_when_decode_payload_fails (String (ascii_of_N 233) "AAA"))).
    reflexivity.
  - apply (proj2 (C6_when_decode_payload_fails "AAAAA") eq_refl eq_refl).
    left. reflexivity.
  - apply (proj2 (C6_when_decode_payload_fails "AA!") eq_refl eq_refl).
    right. split; reflexivity.
  - apply (proj2 (C6_when_decode_payload_fails "AAA!") eq_refl eq_refl).
    cbv. intros [H | [H _]]; discriminate H.
Defined.


(** * Further properties of the script *)

Ltac by4 a :=
  let q := fresh "q" in
  let r := fresh "r" in
  pose proof (Nat.div_mod_eq a 4);
  pose proof (Nat.mod_upper_bound a 4 ltac:(discriminate));
  set (q := a / 4) in *; set (r := a mod 4) in *; clearbody q r.

Lemma length_append (a b : string) :
  String.length (a ++ b) = String.length a + String.length b.
Proof. induction a as [|c a IH]; simpl; [reflexivity | now rewrite IH]. Qed.

(** X1, line 10: whatever the payload, the text handed to the decoder has a
    length that is a multiple of four. *)
Theorem X1_padded_length_multiple_of_4 :
  forall payload : string,
    String.length (payload ++ padding payload) mod 4 = 0.
Proof.
  intros payload. unfold padding. rewrite length_append, str_mul_length.
  by4 (String.length payload + (4 - String.length payload mod 4)).
  by4 (String.length payload). lia.
Qed.

(** ** Which exceptions leave the script *)

Section Outcomes.
Variable parse_cbor : list byte -> result Value.
Variable render : Value -> result string.

Lemma diagnose_failure_ends (e : exn) (decoded : list byte) :
  decoded <> [] -> snd (diagnose_failure e decoded) = Ok tt.
Proof.
  destruct decoded as [|first rest]; [congruence |]. intros _.
  rewrite diagnose_failure_cons. pose proof (classify_ok first) as H.
  destruct (classify first) as [out r]. exact H.
Qed.

Lemma diagnose_failure_empty (e : exn) :
  snd (diagnose_failure e []) = Raise (Exn IndexError "index out of range").
Proof. reflexivity. Qed.

Lemma try_except_snd (decoded : list byte) :
  snd (try_except (show_parsed parse_cbor render decoded)
                  (fun e => diagnose_failure e decoded))
  = match snd (show_parsed parse_cbor render decoded) with
    | Ok a => Ok a
    | Raise e => snd (diagnose_failure e decoded)
    end.
Proof.
  unfold try_except.
  destruct (show_parsed parse_cbor render decoded) as [out [a|e]]; [reflexivity |].
  simpl. now destruct (diagnose_failure e decoded).
Qed.

Lemma main_snd (payload : string) (decoded : list byte) :
  decode_payload payload = Ok decoded ->
  snd (main parse_cbor render payload)
  = snd (try_except (show_parsed parse_cbor render decoded)
                    (fun e => diagnose_failure e decoded)).
Proof.
  intros H. rewrite (main_decoded _ _ _ _ H).
  now destruct (try_except _ _).
Qed.

Lemma main_nonempty (payload : string) (decoded : list byte) :
  decode_payload payload = Ok decoded ->
  decoded <> [] ->
  snd (main parse_cbor render payload) = Ok tt.
Proof.
  intros Hdec Hne. rewrite (main_snd _ _ Hdec), try_except_snd.
  destruct (snd (show_parsed parse_cbor render decoded)) as [[]|e];
    [reflexivity | now apply diagnose_failure_ends].
Qed.
End Outcomes.

(** X2, lines 10 to 28: once the payload decodes to at least one byte the
    script ends normally, whatever [cbor2.loads] and [json.dumps] return or
    raise. *)
Theorem X2_ends_normally_on_nonempty_bytes :
  forall (parse_cbor : list byte -> result Value)
         (render : Value -> result string)
         (payload : string) (decoded : list byte),
    decode_payload payload = Ok decoded ->
    decoded <> [] ->
    snd (main parse_cbor render payload) = Ok tt.
Proof.
  intros parse_cbor render payload decoded. apply main_nonempty.
Qed.

Lemma X2_witness :
  snd (main (fun _ => Raise (Exn CBORDecodeValueError "")) (json.dumps (fun _ => Ok "")) "AA")
  = Ok tt.
Proof.
  apply (X2_ends_normally_on_nonempty_bytes
           (fun _ => Raise (Exn CBORDecodeValueError "")) (json.dumps (fun _ => Ok "")) "AA" [x00]).
  - vm_compute. reflexivity.
  - discriminate.
Defined.

(** X3, lines 10 to 28: an exception of [cbor2.loads] or of [json.dumps]
    never leaves the script.  The script ends with an exception only in two
    ways: with the exception of the decode on line 10, or with the IndexError
    of [decoded[0]] when the bytes are empty. *)
Theorem X3_exceptions_that_leave_the_script :
  forall (parse_cbor : list byte -> result Value)
         (render : Value -> result string)
         (payload : string) (e : exn),
    snd (main parse_cbor render payload) = Raise e ->
    decode_payload payload = Raise e \/
    (decode_payload payload = Ok [] /\
     e = Exn IndexError "index out of range").
Proof.
  intros parse_cbor render payload e H.
  destruct (decode_payload payload) as [decoded|e'] eqn:Hdec.
  - right. destruct decoded as [|first rest].
    + split; [reflexivity |].
      rewrite (main_snd _ _ _ _ Hdec), try_except_snd in H.
      destruct (snd (show_parsed parse_cbor render [])) as [[]|e0];
        [discriminate H |].
      rewrite diagnose_failure_empty in H. now injection H as <-.
    + rewrite (main_nonempty parse_cbor render payload (first :: rest) Hdec)
        in H by discriminate. discriminate H.
  - left. unfold main in H. rewrite Hdec in H. simpl in H. now injection H as <-.
Qed.

Lemma X3_witness :
  decode_payload "A" =
    Raise (Exn binascii_Error
      "Invalid base64-encoded string: number of data characters (1) cannot be 1 more than a multiple of 4")
  \/ (decode_payload "A" = Ok [] /\
      Exn binascii_Error
        "Invalid base64-encoded string: number of data characters (1) cannot be 1 more than a multiple of 4"
      = Exn IndexError "index out of range").
Proof.
  apply (X3_exceptions_that_leave_the_script (fun _ => Ok VNone) (json.dumps (fun _ => Ok "")) "A").
  vm_compute. reflexivity.
Defined.

(** X4, lines 16 to 20: when the bytes parse and [json.dumps] raises, the
    heading "Parsed CBOR structure:" is already printed, the exception of
    [json.dumps] is then reported after "Error parsing CBOR: ", and the raw
    byte analysis follows. *)
Theorem X4_render_error_reported_as_parse_error :
  forall (parse_cbor : list byte -> result Value)
         (render : Value -> result string)
         (payload : string) (decoded : list byte) (parsed : Value) (e : exn),
    decode_payload payload = Ok decoded ->
    parse_cbor decoded = Ok parsed ->
    render parsed = Raise e ->
    exists length_line dump_line rest,
      fst (main parse_cbor render payload) =
        length_line :: dump_line
          :: (newline ++ "Parsed CBOR structure:")
          :: ("Error parsing CBOR: " ++ exn_str e)
          :: (newline ++ "Raw byte analysis:")
          :: rest.
Proof.
  intros parse_cbor render payload decoded parsed e Hdec Hparse Hrender.
  rewrite (main_decoded _ _ _ _ Hdec).
  unfold show_parsed. rewrite Hparse. unfold eval, bind, print.
  rewrite Hrender. unfold try_except.
  destruct decoded as [|first rest].
  - do 3 eexists. reflexivity.
  - rewrite diagnose_failure_cons. destruct (classify first) as [out r].
    do 3 eexists. reflexivity.
Qed.

Lemma X4_witness :
  exists length_line dump_line rest,
    fst (main (cbor2.loads (fun _ => Ok VNone)) (json.dumps (fun _ => Ok "")) "oUAA") =
      length_line :: dump_line
        :: (newline ++ "Parsed CBOR structure:")
        :: ("Error parsing CBOR: "
            ++ "keys must be str, int, float, bool or None, not bytes")
        :: (newline ++ "Raw byte analysis:")
        :: rest.
Proof.
  apply (X4_render_error_reported_as_parse_error
           (cbor2.loads (fun _ => Ok VNone)) (json.dumps (fun _ => Ok "")) "oUAA"
           [xa1; x40; x00] (VDict [(VBytes [], VInt 0)])
           (Exn TypeError "keys must be str, int, float, bool or None, not bytes"));
    vm_compute; reflexivity.
Defined.

(** ** The decode of line 10 *)

Lemma to_standard_char_facts (c : ascii) :
  base64._urlsafe_decode_translation (byte_of_ascii (to_standard_char c))
  = base64._urlsafe_decode_translation (byte_of_ascii c) /\
  (N_of_ascii (to_standard_char c) <? 128)%N = (N_of_ascii c <? 128)%N.
Proof.
  destruct c as [[|] [|] [|] [|] [|] [|] [|] [|]]; split; vm_compute; reflexivity.
Qed.

Lemma to_standard_length (s : string) :
  String.length (to_standard s) = String.length s.
Proof. induction s as [|c s IH]; simpl; [reflexivity | now rewrite IH]. Qed.

Lemma to_standard_translated (s : string) :
  translated (to_standard s) = translated s.
Proof.
  induction s as [|c s IH]; [reflexivity |].
  cbn [to_standard]. rewrite !translated_String, IH.
  now rewrite (proj1 (to_standard_char_facts c)).
Qed.

Lemma to_standard_is_ascii (s : string) :
  is_ascii (to_standard s) = is_ascii s.
Proof.
  induction s as [|c s IH]; [reflexivity |].
  cbn [to_standard]. rewrite !is_ascii_String, IH.
  now rewrite (proj2 (to_standard_char_facts c)).
Qed.

(** X5, lines 9 and 10: the decoder takes both alphabets, also mixed in one
    payload: writing [+] for every [-] and [/] for every [_] changes nothing,
    neither the bytes nor the exception. *)
Theorem X5_both_alphabets_decode_alike :
  forall payload : string,
    decode_payload (to_standard payload) = decode_payload payload.
Proof.
  intros payload. unfold decode_payload, padding.
  rewrite !urlsafe_b64decode_unfold, to_standard_length.
  rewrite !is_ascii_app, !translated_app.
  now rewrite to_standard_is_ascii, to_standard_translated.
Qed.

Lemma reference_pad_length (s : string) :
  String.length (reference.pad s) mod 4 = 0.
Proof.
  unfold reference.pad. rewrite length_append, str_mul_length.
  by4 (String.length s + (4 - String.length s mod 4) mod 4).
  by4 (4 - String.length s mod 4). by4 (String.length s). lia.
Qed.

Lemma reference_pad_idem (s : string) :
  reference.pad (reference.pad s) = reference.pad s.
Proof.
  change (reference.pad (reference.pad s))
    with (reference.pad s
          ++ str_mul "=" ((4 - String.length (reference.pad s) mod 4) mod 4)).
  rewrite reference_pad_length. apply append_empty_r.
Qed.

Lemma decode_payload_of_accepted (v : reference.variant) (payload : string)
      (bs : list byte) :
  reference.b64decode v (reference.pad payload) = Some bs ->
  decode_payload payload = Ok bs.
Proof.
  intros H. unfold decode_payload.
  destruct (padded_payload payload) as [extra ->].
  destruct (a2b_follows_reference v _ _ (le_n _) _ H) as [Hascii Hloop].
  rewrite urlsafe_b64decode_unfold, is_ascii_app, Hascii, is_ascii_pads.
  cbn [andb]. rewrite translated_app. apply Hloop.
Qed.

(** X6, line 10: the padding is appended without a look at the payload, and
    a payload that carries its pad characters already is none the worse for
    it: where a reference decoder accepts the padded payload, the payload
    decodes to the same bytes with its padding as without. *)
Theorem X6_padding_already_there :
  forall (v : reference.variant) (payload : string) (bs : list byte),
    reference.b64decode v (reference.pad payload) = Some bs ->
    decode_payload (reference.pad payload) = Ok bs /\
    decode_payload payload = Ok bs.
Proof.
  intros v payload bs H. split.
  - apply (decode_payload_of_accepted v).
    now rewrite reference_pad_idem.
  - now apply (decode_payload_of_accepted v).
Qed.

Lemma X6_witness :
  decode_payload (reference.pad "-_8_-w") = Ok [xfb; xff; x3f; xfb] /\
  decode_payload "-_8_-w" = Ok [xfb; xff; x3f; xfb].
Proof.
  apply (X6_padding_already_there reference.UrlSafe "-_8_-w").
  vm_compute. reflexivity.
Defined.

Lemma data_chars_app (a b : string) :
  data_chars (a ++ b) = data_chars a + data_chars b.
Proof.
  induction a as [|c a IH]; [reflexivity |].
  cbn [append data_chars]. rewrite IH. lia.
Qed.

Lemma data_chars_pads (n : nat) : data_chars (str_mul "=" n) = 0.
Proof. induction n as [|n IH]; [reflexivity | exact IH]. Qed.

Lemma data_chars_le_length (s : string) : data_chars s <= String.length s.
Proof.
  induction s as [|c s IH]; [apply le_n |].
  cbn [data_chars String.length]. destruct (is_data_char c); lia.
Qed.

(** A digit moves the loop one place on and, but for the first of a group,
    writes one byte: after [t] digits there are [3 * t / 4] bytes. *)
Lemma digit_writes (b : byte) (t : nat) (lc p : N) (bin : list byte) :
  (Byte.to_N b =? 61)%N = false ->
  (64 <=? binascii.table_a2b_base64 (Byte.to_N b))%N = false ->
  List.length bin = 3 * t / 4 ->
  exists lc1 bin1,
    List.length bin1 = 3 * (t + 1) / 4 /\
    forall rest,
      binascii.a2b_loop (b :: rest) (N.of_nat (t mod 4)) lc p bin
      = binascii.a2b_loop rest (N.of_nat ((t + 1) mod 4)) lc1 0 bin1.
Proof.
  intros H61 H64 Hlen.
  assert (Hcases : t mod 4 = 0 /\ (t + 1) mod 4 = 1 /\ 3 * (t + 1) / 4 = 3 * t / 4
                   \/ t mod 4 = 1 /\ (t + 1) mod 4 = 2 /\ 3 * (t + 1) / 4 = 3 * t / 4 + 1
                   \/ t mod 4 = 2 /\ (t + 1) mod 4 = 3 /\ 3 * (t + 1) / 4 = 3 * t / 4 + 1
                   \/ t mod 4 = 3 /\ (t + 1) mod 4 = 0 /\ 3 * (t + 1) / 4 = 3 * t / 4 + 1).
  { by4 (3 * (t + 1)). by4 (3 * t). by4 (t + 1). by4 t. lia. }
  destruct Hcases as [[Hq [Hq' Hn]] | [[Hq [Hq' Hn]] | [[Hq [Hq' Hn]] | [Hq [Hq' Hn]]]]];
    rewrite Hq, Hq', Hn; eexists; eexists;
    (split; [| intros rest;
               first [ apply digit_at_0 | apply digit_at_1
                     | apply digit_at_2 | apply digit_at_3 ];
               [exact H61 | exact H64 | reflexivity]]);
    rewrite ?length_app; cbn [List.length]; lia.
Qed.

(** The loop never writes more than three bytes for four digits, whatever
    else the text holds. *)
Lemma a2b_loop_length_le (s : string) :
  forall (t : nat) (lc p : N) (bin bs : list byte),
    List.length bin = 3 * t / 4 ->
    binascii.a2b_loop (translated s) (N.of_nat (t mod 4)) lc p bin = Ok bs ->
    List.length bs <= 3 * (t + data_chars s) / 4.
Proof.
  induction s as [|c s IH]; intros t lc p bin bs Hlen H.
  - cbn [translated list_byte_of_string list_ascii_of_string List.map
           binascii.a2b_loop] in H.
    destruct (N.of_nat (t mod 4) =? 0)%N.
    + injection H as <-. cbn [data_chars]. rewrite Hlen, Nat.add_0_r. apply le_n.
    + destruct (N.of_nat (t mod 4) =? 1)%N; discriminate H.
  - rewrite translated_String in H. destruct (Ascii.eqb c "=") eqn:Hc.
    + apply Ascii.eqb_eq in Hc. subst c.
      change (base64._urlsafe_decode_translation (byte_of_ascii "=")) with "="%byte in H.
      rewrite a2b_loop_pad in H by reflexivity.
      change (data_chars (String "=" s)) with (data_chars s).
      destruct (2 <=? N.of_nat (t mod 4))%N.
      * destruct (4 <=? N.of_nat (t mod 4) + (p + 1))%N.
        -- injection H as <-. rewrite Hlen.
           by4 (3 * (t + data_chars s)). by4 (3 * t). lia.
        -- now apply (IH t lc (p + 1)%N bin).
      * now apply (IH t lc p bin).
    + destruct (char_facts c Hc) as [H61 H64]. cbn [data_chars].
      fold (code_value c) in *. unfold code_value in H64.
      destruct (is_data_char c).
      * destruct (digit_writes _ t lc p bin H61 H64 Hlen) as [lc1 [bin1 [Hlen1 Hstep]]].
        rewrite Hstep in H.
        replace (t + (1 + data_chars s)) with (t + 1 + data_chars s) by lia.
        now apply (IH (t + 1) lc1 0%N bin1).
      * rewrite a2b_loop_skip in H by assumption.
        now apply (IH t lc p bin).
Qed.

(** X7, lines 10 and 11: the length the script prints is at most three
    quarters of the number of base64 digits in the payload, and so of the
    length of the payload, for every payload that decodes. *)
Theorem X7_decoded_length_at_most_three_quarters :
  forall (payload : string) (bs : list byte),
    decode_payload payload = Ok bs ->
    List.length bs <= 3 * data_chars payload / 4 /\
    List.length bs <= 3 * String.length payload / 4.
Proof.
  intros payload bs H. unfold decode_payload in H.
  rewrite urlsafe_b64decode_unfold in H.
  destruct (is_ascii (payload ++ padding payload)); [| discriminate H].
  assert (Hle : List.length bs <= 3 * data_chars payload / 4).
  { pose proof (a2b_loop_length_le (payload ++ padding payload) 0 0%N 0%N [] bs
                  eq_refl H) as Hb.
    unfold padding in Hb.
    now rewrite data_chars_app, data_chars_pads, Nat.add_0_r in Hb. }
  split; [exact Hle |].
  pose proof (data_chars_le_length payload).
  by4 (3 * data_chars payload). by4 (3 * String.length payload). lia.
Qed.

Lemma X7_witness :
  List.length [xfb; xff; x3f; xfb] <= 3 * data_chars "-_8_-w" / 4 /\
  List.length [xfb; xff; x3f; xfb] <= 3 * String.length "-_8_-w" / 4.
Proof.
  apply (X7_decoded_length_at_most_three_quarters "-_8_-w" [xfb; xff; x3f; xfb]).
  vm_compute. reflexivity.
Defined.

(** Over a text with no pad character the loop has written three bytes for
    every four digits when it reaches the end of the text. *)
Lemma a2b_loop_counts_length (s : string) :
  has_pad s = false ->
  forall (t : nat) (lc : N) (bin : list byte),
    List.length bin = 3 * t / 4 ->
    exists lc' bin',
      List.length bin' = 3 * (t + data_chars s) / 4 /\
      forall tail,
        binascii.a2b_loop (translated s ++ tail) (N.of_nat (t mod 4)) lc 0 bin
        = binascii.a2b_loop tail (N.of_nat ((t + data_chars s) mod 4)) lc' 0 bin'.
Proof.
  induction s as [|c s IH]; intros Hpad t lc bin Hlen.
  - exists lc, bin. cbn [data_chars]. rewrite Nat.add_0_r. now split.
  - rewrite has_pad_String in Hpad. apply orb_false_iff in Hpad.
    destruct Hpad as [Hc Hs]. destruct (char_facts c Hc) as [H61 H64].
    unfold code_value in H64. cbn [data_chars]. destruct (is_data_char c).
    + destruct (digit_writes _ t lc 0%N bin H61 H64 Hlen) as [lc1 [bin1 [Hlen1 Hstep]]].
      destruct (IH Hs (t + 1) lc1 bin1 Hlen1) as [lc' [bin' [Hlen' Hrest]]].
      exists lc', bin'.
      replace (t + (1 + data_chars s)) with (t + 1 + data_chars s) by lia.
      split; [exact Hlen' |]. intros tail.
      rewrite translated_String. cbn [app]. now rewrite Hstep, Hrest.
    + destruct (IH Hs t lc bin Hlen) as [lc' [bin' [Hlen' Hrest]]].
      exists lc', bin'. split; [exact Hlen' |]. intros tail.
      rewrite translated_String. cbn [app].
      rewrite a2b_loop_skip by assumption. apply Hrest.
Qed.

(** X8, lines 10 and 11: for an ASCII payload with no pad character of its
    own that decodes, the length the script prints is exactly three quarters
    of the number of its base64 digits, rounded down. *)
Theorem X8_decoded_length_exact :
  forall (payload : string) (bs : list byte),
    is_ascii payload = true ->
    has_pad payload = false ->
    decode_payload payload = Ok bs ->
    List.length bs = 3 * data_chars payload / 4.
Proof.
  intros payload bs Hascii Hpad H. unfold decode_payload in H.
  rewrite urlsafe_b64decode_unfold, is_ascii_app, Hascii in H.
  unfold padding in H. rewrite is_ascii_pads, translated_app in H. cbn [andb] in H.
  destruct (a2b_loop_counts_length payload Hpad 0 0%N [] eq_refl)
    as [lc [bin [Hlen Hloop]]].
  change (binascii.a2b_loop ?l 0 0 0 [])
    with (binascii.a2b_loop l (N.of_nat (0 mod 4)) 0 0 []) in H.
  rewrite Hloop in H. cbn [Nat.add] in *.
  pose proof (Nat.mod_upper_bound (data_chars payload) 4 ltac:(lia)) as Hq.
  pose proof (Nat.mod_upper_bound (String.length payload) 4 ltac:(lia)) as Hr.
  destruct (a2b_loop_ends (data_chars payload mod 4)
              (4 - String.length payload mod 4) lc bin Hq ltac:(lia))
    as [Hfail Hok].
  assert (Hdec : data_chars payload mod 4 = 1
                 \/ (data_chars payload mod 4 = 2
                     /\ 4 - String.length payload mod 4 = 1)
                 \/ ~ (data_chars payload mod 4 = 1
                       \/ (data_chars payload mod 4 = 2
                           /\ 4 - String.length payload mod 4 = 1))) by lia.
  destruct Hdec as [Hd | [Hd | Hd]].
  - destruct (Hfail (or_introl Hd)) as [e [He _]]. rewrite He in H. discriminate H.
  - destruct (Hfail (or_intror Hd)) as [e [He _]]. rewrite He in H. discriminate H.
  - rewrite (Hok Hd) in H. injection H as <-. exact Hlen.
Qed.

Lemma X8_witness :
  List.length [x00; x00] = 3 * data_chars "AAA!" / 4.
Proof.
  apply (X8_decoded_length_exact "AAA!" [x00; x00]); vm_compute; reflexivity.
Defined.

(** A text without a base64 digit leaves the loop where it started. *)
Lemma a2b_loop_no_digits (s : string) :
  data_chars s = 0 ->
  forall (lc p : N) (bin : list byte),
    binascii.a2b_loop (translated s) 0 lc p bin = Ok bin.
Proof.
  induction s as [|c s IH]; intros Hn lc p bin; [reflexivity |].
  rewrite translated_String. destruct (Ascii.eqb c "=") eqn:Hc.
  - apply Ascii.eqb_eq in Hc. subst c.
    change (base64._urlsafe_decode_translation (byte_of_ascii "=")) with "="%byte.
    rewrite a2b_loop_pad by reflexivity. apply IH. exact Hn.
  - destruct (char_facts c Hc) as [H61 H64]. unfold code_value in H64.
    cbn [data_chars] in Hn. destruct (is_data_char c); [discriminate Hn |].
    rewrite a2b_loop_skip by assumption. apply IH. exact Hn.
Qed.

(** X9, lines 10, 16 and 24: an ASCII payload without a single base64 digit,
    empty or made of blanks, pad characters or punctuation, decodes to no
    bytes at all; [cbor2.loads] raises on them and the script ends with the
    IndexError of [decoded[0]]. *)
Theorem X9_payload_without_digits :
  forall (beyond : list byte -> result Value) (deep : Value -> result string)
         (payload : string),
    is_ascii payload = true ->
    data_chars payload = 0 ->
    decode_payload payload = Ok [] /\
    snd (main (cbor2.loads beyond) (json.dumps deep) payload)
    = Raise (Exn IndexError "index out of range").
Proof.
  intros beyond deep payload Hascii Hn.
  assert (Hdec : decode_payload payload = Ok []).
  { unfold decode_payload, padding.
    rewrite urlsafe_b64decode_unfold, is_ascii_app, Hascii, is_ascii_pads.
    cbn [andb]. apply a2b_loop_no_digits.
    now rewrite data_chars_app, data_chars_pads, Hn. }
  split; [exact Hdec |].
  rewrite (main_snd _ _ _ _ Hdec), try_except_snd. reflexivity.
Qed.

Lemma X9_witness :
  decode_payload " =!" = Ok [] /\
  snd (main (cbor2.loads (fun _ => Ok VNone)) (json.dumps (fun _ => Ok "")) " =!")
  = Raise (Exn IndexError "index out of range").
Proof.
  apply (X9_payload_without_digits (fun _ => Ok VNone) (fun _ => Ok "") " =!");
    reflexivity.
Defined.

(** ** The hex dump of line 12 *)

Lemma bytes_hex_length (bs : list byte) :
  String.length (bytes_hex bs) = 2 * List.length bs.
Proof.
  induction bs as [|b bs IH]; [reflexivity |].
  cbn [bytes_hex format_02x append String.length List.length]. rewrite IH. lia.
Qed.

(** X10, line 12: the hex dump has two characters for each byte shown, and
    never more than two hundred. *)
Theorem X10_hex_dump_length :
  forall decoded : list byte,
    String.length (bytes_hex (firstn 100 decoded))
    = 2 * Nat.min 100 (List.length decoded) /\
    String.length (bytes_hex (firstn 100 decoded)) <= 200.
Proof.
  intros decoded. rewrite bytes_hex_length, length_firstn. split; lia.
Qed.

Lemma below_256 (x : N) : (x <= 255)%N -> In x (List.map N.of_nat (seq 0 256)).
Proof.
  intros H. rewrite <- (N2Nat.id x). apply in_map, in_seq. lia.
Qed.

Lemma format_02x_inj (a b : byte) : format_02x a = format_02x b -> a = b.
Proof.
  intros H.
  assert (Hall : forallb (fun x => forallb (fun y =>
                   if String.eqb
                        (String (hexdigit (x / 16)) (String (hexdigit (x mod 16)) ""))
                        (String (hexdigit (y / 16)) (String (hexdigit (y mod 16)) ""))
                   then (x =? y)%N else true)
                   (List.map N.of_nat (seq 0 256))) (List.map N.of_nat (seq 0 256)) = true)
    by (vm_compute; reflexivity).
  rewrite forallb_forall in Hall.
  specialize (Hall _ (below_256 _ (Byte.to_N_bounded a))).
  rewrite forallb_forall in Hall.
  specialize (Hall _ (below_256 _ (Byte.to_N_bounded b))).
  unfold format_02x in H. cbv zeta in H. rewrite H, String.eqb_refl in Hall.
  apply N.eqb_eq in Hall.
  pose proof (Byte.of_to_N a) as Ha. rewrite Hall, Byte.of_to_N in Ha.
  now injection Ha as <-.
Qed.

Lemma bytes_hex_inj (a : list byte) :
  forall b, bytes_hex a = bytes_hex b -> a = b.
Proof.
  induction a as [|x a IH]; intros [|y b] H.
  - reflexivity.
  - discriminate H.
  - discriminate H.
  - cbn [bytes_hex format_02x append] in H. injection H as H1 H2 H3.
    f_equal.
    + apply format_02x_inj. unfold format_02x. cbv zeta. now rewrite H1, H2.
    + now apply IH.
Qed.

(** X11, line 12: the hex dump loses nothing of the bytes it shows: two byte
    sequences with the same dump agree on their first hundred bytes, and
    sequences of at most a hundred bytes with the same dump are equal. *)
Theorem X11_hex_dump_faithful :
  forall a b : list byte,
    bytes_hex (firstn 100 a) = bytes_hex (firstn 100 b) ->
    firstn 100 a = firstn 100 b /\
    (List.length a <= 100 -> List.length b <= 100 -> a = b).
Proof.
  intros a b H. apply bytes_hex_inj in H. split; [exact H |].
  intros Ha Hb. now rewrite <- (firstn_all2 _ Ha), <- (firstn_all2 _ Hb).
Qed.

Lemma X11_witness :
  firstn 100 [xa4; x68] = firstn 100 [xa4; x68] /\
  (List.length [xa4; x68] <= 100 -> List.length [xa4; x68] <= 100 ->
   [xa4; x68] = [xa4; x68]).
Proof.
  apply (X11_hex_dump_faithful [xa4; x68] [xa4; x68]). reflexivity.
Defined.

(** ** What [cbor2.loads] leaves unread *)

Lemma read_more (amount : N) (data bs rest extra : list byte) :
  cbor2.read amount data = Parsed (bs, rest) ->
  cbor2.read amount (data ++ extra) = Parsed (bs, (rest ++ extra)%list).
Proof.
  unfold cbor2.read. intros H.
  destruct (N.of_nat (List.length data) <? amount)%N eqn:Hlt; [discriminate H |].
  apply N.ltb_ge in Hlt. injection H as <- <-.
  replace (N.of_nat (List.length (data ++ extra)) <? amount)%N with false.
  - rewrite firstn_app, skipn_app.
    replace (N.to_nat amount - List.length data) with 0 by lia.
    cbn [firstn skipn]. now rewrite app_nil_r.
  - symmetry. apply N.ltb_ge. rewrite length_app. lia.
Qed.

Lemma decode_length_more (subtype : N) (allow : bool)
      (data rest extra : list byte) (n : option N) :
  cbor2._decode_length subtype allow data = Parsed (n, rest) ->
  cbor2._decode_length subtype allow (data ++ extra)
  = Parsed (n, (rest ++ extra)%list).
Proof.
  unfold cbor2._decode_length. intros H.
  repeat match type of H with
         | (if ?c then _ else _) = _ => destruct c
         end;
    try discriminate H;
    try (injection H as <- <-; reflexivity);
    match type of H with
    | match cbor2.read ?w _ with _ => _ end = _ =>
        destruct (cbor2.read w data) as [[bs rest']| |] eqn:Hr;
        try discriminate H;
        rewrite (read_more _ _ _ _ extra Hr);
        injection H as <- <-; reflexivity
    end.
Qed.

Lemma read_string_more (what : string) (subtype : N)
      (data bs rest extra : list byte) :
  cbor2.read_string what subtype data = Parsed (bs, rest) ->
  cbor2.read_string what subtype (data ++ extra)
  = Parsed (bs, (rest ++ extra)%list).
Proof.
  unfold cbor2.read_string. intros H.
  destruct (cbor2._decode_length subtype true data) as [[[n|] rest']| |] eqn:Hl;
    try discriminate H.
  rewrite (decode_length_more _ _ _ _ extra _ Hl).
  destruct (cbor2.sys_maxsize <? n)%N; [discriminate H |].
  destruct (n <=? 65536)%N; [| discriminate H].
  now apply read_more.
Qed.

(** An item that is decoded stays the same item with more fuel and with more
    bytes after it. *)
Lemma decode_more (fuel : nat) :
  (forall depth data v rest,
      cbor2._decode fuel depth data = Parsed (v, rest) ->
      forall fuel' extra, fuel <= fuel' ->
        cbor2._decode fuel' depth (data ++ extra)
        = Parsed (v, (rest ++ extra)%list)) /\
  (forall depth n data items rest,
      cbor2.decode_items fuel depth n data = Parsed (items, rest) ->
      forall fuel' extra, fuel <= fuel' ->
        cbor2.decode_items fuel' depth n (data ++ extra)
        = Parsed (items, (rest ++ extra)%list)) /\
  (forall depth n dictionary data d rest,
      cbor2.decode_pairs fuel depth n dictionary data = Parsed (d, rest) ->
      forall fuel' extra, fuel <= fuel' ->
        cbor2.decode_pairs fuel' depth n dictionary (data ++ extra)
        = Parsed (d, (rest ++ extra)%list)).
Proof.
  induction fuel as [|fuel [IHd [IHi IHp]]].
  - repeat split; intros; discriminate.
  - split; [| split].
    + intros depth data v rest H [|f'] extra Hle; [lia |].
      assert (Hf : fuel <= f') by lia.
      cbn [cbor2._decode] in H |- *.
      destruct (cbor2.read 1 data) as [[first data1]| |] eqn:Hr;
        try discriminate H.
      rewrite (read_more _ _ _ _ extra Hr).
      repeat match type of H with
             | (if ?c then _ else _) = _ => destruct c
             | match cbor2._decode_length ?a ?b ?d with _ => _ end = _ =>
                 let Hl := fresh "Hl" in
                 destruct (cbor2._decode_length a b d) as [[[?|] ?]| |] eqn:Hl;
                 try discriminate H;
                 rewrite (decode_length_more _ _ _ _ extra _ Hl)
             | match cbor2.read_string ?w ?a ?d with _ => _ end = _ =>
                 let Hs := fresh "Hs" in
                 destruct (cbor2.read_string w a d) as [[? ?]| |] eqn:Hs;
                 try discriminate H;
                 rewrite (read_string_more _ _ _ _ _ extra Hs)
             | match cbor2.decode_items ?f ?dp ?n ?d with _ => _ end = _ =>
                 let Hi := fresh "Hi" in
                 destruct (cbor2.decode_items f dp n d) as [[? ?]| |] eqn:Hi;
                 try discriminate H;
                 rewrite (IHi _ _ _ _ _ Hi f' extra Hf)
             | match cbor2.decode_pairs ?f ?dp ?n ?dc ?d with _ => _ end = _ =>
                 let Hp := fresh "Hp" in
                 destruct (cbor2.decode_pairs f dp n dc d) as [[? ?]| |] eqn:Hp;
                 try discriminate H;
                 rewrite (IHp _ _ _ _ _ _ Hp f' extra Hf)
             end;
        try discriminate H; injection H as <- <-; reflexivity.
    + intros depth n data items rest H [|f'] extra Hle; [lia |].
      assert (Hf : fuel <= f') by lia.
      cbn [cbor2.decode_items] in H |- *.
      destruct (n =? 0)%N; [injection H as <- <-; reflexivity |].
      destruct (cbor2._decode fuel depth data) as [[item rest1]| |] eqn:Hd;
        try discriminate H.
      rewrite (IHd _ _ _ _ Hd f' extra Hf).
      destruct (cbor2.decode_items fuel depth (n - 1) rest1)
        as [[more rest2]| |] eqn:Hi; try discriminate H.
      rewrite (IHi _ _ _ _ _ Hi f' extra Hf).
      injection H as <- <-. reflexivity.
    + intros depth n dictionary data d rest H [|f'] extra Hle; [lia |].
      assert (Hf : fuel <= f') by lia.
      cbn [cbor2.decode_pairs] in H |- *.
      destruct (n =? 0)%N; [injection H as <- <-; reflexivity |].
      destruct (cbor2._decode fuel depth data) as [[key rest1]| |] eqn:Hk;
        try discriminate H.
      rewrite (IHd _ _ _ _ Hk f' extra Hf).
      destruct (cbor2.is_container key); [discriminate H |].
      destruct (cbor2._decode fuel depth rest1) as [[value rest2]| |] eqn:Hv;
        try discriminate H.
      rewrite (IHd _ _ _ _ Hv f' extra Hf).
      now apply IHp.
Qed.

(** X12, line 16: within the definite-length items the model of cbor2
    follows, [cbor2.loads] reads one item and leaves what follows it unread:
    bytes after a complete item change nothing of the value, so lines 16 to
    18 print the same for them. *)
Theorem X12_trailing_bytes_unread :
  forall (beyond : list byte -> result Value) (deep : Value -> result string)
         (s extra : list byte) (v : Value),
    cbor2.decode s = Parsed v ->
    cbor2.decode (s ++ extra) = Parsed v /\
    cbor2.loads beyond (s ++ extra) = Ok v /\
    show_parsed (cbor2.loads beyond) (json.dumps deep) (s ++ extra)
    = show_parsed (cbor2.loads beyond) (json.dumps deep) s.
Proof.
  intros beyond deep s extra v H.
  assert (H' : cbor2.decode (s ++ extra) = Parsed v).
  { unfold cbor2.decode in *.
    destruct (cbor2._decode (2 * List.length s + 2) 0 s) as [[v' rest]| |] eqn:Hd;
      try discriminate H.
    injection H as ->.
    rewrite (proj1 (decode_more _) _ _ _ _ Hd
               (2 * List.length (s ++ extra) + 2) extra).
    - reflexivity.
    - rewrite length_app. lia. }
  split; [exact H' |].
  unfold show_parsed, cbor2.loads. now rewrite H, H'.
Qed.

Lemma X12_witness :
  cbor2.decode ([xf5] ++ [xff; x00]) = Parsed (VBool true) /\
  cbor2.loads (fun _ => Ok VNone) ([xf5] ++ [xff; x00]) = Ok (VBool true) /\
  show_parsed (cbor2.loads (fun _ => Ok VNone)) (json.dumps (fun _ => Ok ""))
    ([xf5] ++ [xff; x00])
  = show_parsed (cbor2.loads (fun _ => Ok VNone)) (json.dumps (fun _ => Ok ""))
      [xf5].
Proof.
  apply (X12_trailing_bytes_unread (fun _ => Ok VNone) (fun _ => Ok "")
           [xf5] [xff; x00] (VBool true)).
  reflexivity.
Defined.
